(** * ShieldAML: the risk engine of [backend/ml_model.py]

    A shallow embedding of the transaction scoring pipeline
    ([extract_features], the five rule trees, [random_forest_predict],
    [detect_flags], [get_recommendation], [analyze_transaction]) and of the
    KYC assessor ([analyze_kyc]), followed by the properties established
    about them.

    Conventions of the embedding:
    - a Python [float] is a binary64 value ([PrimFloat.float]) and a Python
      [int] is a [Z];
    - a Python [dict] with string keys is a [gmap string _], a Python [set]
      of strings is a [gset string];
    - a Python [str] is a [string] holding ASCII text, so [.lower()] only
      moves the letters A-Z;
    - a call that may raise returns a [result]; the clock and the random
      source read by [analyze_transaction] and [analyze_kyc] are an explicit
      [env] argument. *)

From Stdlib Require Import ZArith String Ascii Floats DecimalString.
From stdpp Require Import base option list gmap strings fin_maps.

#[local] Open Scope string_scope.
#[local] Open Scope Z_scope.
#[local] Set Warnings "-inexact-float".

(** ** Python values, exceptions and results *)

Inductive pyval : Type :=
  | PyNone
  | PyBool (b : bool)
  | PyInt (n : Z)
  | PyFloat (x : float)
  | PyStr (s : string).

Inductive exn : Type :=
  | TypeError
  | ValueError
  | OverflowError
  | ZeroDivisionError.

Inductive result (A : Type) : Type :=
  | Ok (a : A)
  | Raise (e : exn).
Arguments Ok {A} a.
Arguments Raise {A} e.

#[global] Instance result_ret : MRet result := fun A a => Ok a.
#[global] Instance result_bind : MBind result := fun A B k r =>
  match r with
  | Ok a => k a
  | Raise e => Raise e
  end.
#[global] Instance result_fmap : FMap result := fun A B g r =>
  match r with
  | Ok a => Ok (g a)
  | Raise e => Raise e
  end.

Definition is_ok {A} (r : result A) : bool :=
  match r with Ok _ => true | Raise _ => false end.

(** A number as an arithmetic expression of Python yields it: the trees
    start from [0.0] and add integers, which gives a [float], but
    [min(score, 100)] hands back the [int] 100 itself when it is the
    smaller argument. *)
Inductive pynum : Type :=
  | NInt (n : Z)
  | NFloat (x : float).

(** ** Built-in conversions *)

(** The integer [n] as the nearest binary64 value, ties to even. *)
Definition Z_to_float (n : Z) : float :=
  SF2Prim (binary_normalize prec emax n 0 false).

(** [float(n)] for an [int]: an integer beyond the binary64 range raises. *)
Definition float_of_int (n : Z) : result float :=
  match binary_normalize prec emax n 0 false with
  | S754_infinity _ => Raise OverflowError
  | sf => Ok (SF2Prim sf)
  end.

(** [int(x)] for a [float]: truncation towards zero. *)
Definition int_of_float (x : float) : result Z :=
  match Prim2SF x with
  | S754_zero _ => Ok 0
  | S754_finite s m e =>
      let a := Z.shiftl (Zpos m) e in Ok (if s then - a else a)
  | S754_infinity _ => Raise OverflowError
  | S754_nan => Raise ValueError
  end.

(** The quotient [num / den] ([0 < den]) rounded to the nearest integer,
    ties to even. *)
Definition round_half_even (num den : Z) : Z :=
  let q := num / den in
  let r := num mod den in
  match 2 * r ?= den with
  | Lt => q
  | Gt => q + 1
  | Eq => if Z.even q then q else q + 1
  end.

(** [round(x)] for a [float]. *)
Definition round_float (x : float) : result Z :=
  match Prim2SF x with
  | S754_zero _ => Ok 0
  | S754_finite s m e =>
      let a := if 0 <=? e then Zpos m * 2 ^ e
               else round_half_even (Zpos m) (2 ^ (- e)) in
      Ok (if s then - a else a)
  | S754_infinity _ => Raise OverflowError
  | S754_nan => Raise ValueError
  end.

(** [round(v)] for a number: an [int] is its own rounding. *)
Definition py_round (v : pynum) : result Z :=
  match v with
  | NInt n => Ok n
  | NFloat x => round_float x
  end.

(** [x % y] on floats. C's [fmod] is exact: both operands are integers
    once scaled to their common exponent [e], and the remainder of the
    truncated division, scaled back, is representable. Python then moves a
    non-zero remainder to the sign of [y] and gives a zero remainder the
    sign of [y]. *)
Definition float_mod (x y : float) : result float :=
  match Prim2SF y with
  | S754_zero _ => Raise ZeroDivisionError
  | S754_nan => Ok nan
  | S754_infinity sy =>
      match Prim2SF x with
      | S754_nan | S754_infinity _ => Ok nan
      | S754_zero _ => Ok (if sy then (-0)%float else 0%float)
      | S754_finite sx _ _ => Ok (if Bool.eqb sx sy then x else (x + y)%float)
      end
  | S754_finite sy my ey =>
      match Prim2SF x with
      | S754_nan | S754_infinity _ => Ok nan
      | S754_zero _ => Ok (if sy then (-0)%float else 0%float)
      | S754_finite sx mx ex =>
          let e := Z.min ex ey in
          let X := Zpos mx * 2 ^ (ex - e) in
          let Y := Zpos my * 2 ^ (ey - e) in
          let R := Z.rem X Y in
          if R =? 0 then Ok (if sy then (-0)%float else 0%float)
          else
            let r := SF2Prim (binary_normalize prec emax (if sx then - R else R) e false) in
            Ok (if Bool.eqb sx sy then r else (r + y)%float)
      end
  end.

(** ASCII [str.lower()]. *)
Definition ascii_lower (c : ascii) : ascii :=
  let n := nat_of_ascii c in
  if ((65 <=? n) && (n <=? 90))%nat then ascii_of_nat (n + 32) else c.

Fixpoint lower (s : string) : string :=
  match s with
  | EmptyString => EmptyString
  | String c s' => String (ascii_lower c) (lower s')
  end.

(** [needle in hay] on strings. *)
Fixpoint py_in_str (needle hay : string) : bool :=
  String.prefix needle hay ||
  match hay with
  | EmptyString => false
  | String _ hay' => py_in_str needle hay'
  end.

(** Decimal text of an integer, as [str(n)] and an f-string give it. *)
Definition str_of_int (n : Z) : string :=
  NilZero.string_of_int (Z.to_int n).

(** Comparison of a [float] with an [int], which Python carries out on the
    exact values; [None] when the float is a NaN, for which every ordering
    test is false. *)
Definition float_cmp_int (x : float) (n : Z) : option comparison :=
  match Prim2SF x with
  | S754_nan => None
  | S754_infinity s => Some (if s then Lt else Gt)
  | S754_zero _ => Some (0 ?= n)
  | S754_finite s m e =>
      let v := if s then Zneg m else Zpos m in
      Some (if 0 <=? e then v * 2 ^ e ?= n else v ?= n * 2 ^ (- e))
  end.

(** [x > n], [x >= n], [x < n] and [x == n]. *)
Definition float_gt_int (x : float) (n : Z) : bool :=
  match float_cmp_int x n with Some Gt => true | _ => false end.
Definition float_ge_int (x : float) (n : Z) : bool :=
  match float_cmp_int x n with Some Gt | Some Eq => true | _ => false end.
Definition float_lt_int (x : float) (n : Z) : bool :=
  match float_cmp_int x n with Some Lt => true | _ => false end.
Definition float_eq_int (x : float) (n : Z) : bool :=
  match float_cmp_int x n with Some Eq => true | _ => false end.

(** [min(v, n)] with an [int] second argument: Python keeps the first
    argument unless the second is strictly smaller. *)
Definition py_min (v : pynum) (n : Z) : pynum :=
  match v with
  | NInt a => if n <? a then NInt n else NInt a
  | NFloat x => if float_gt_int x n then NInt n else NFloat x
  end.

(** [v * w] for a float [w]; an [int] operand is converted first (the
    trees only ever hand over an [int] that is at most 100). *)
Definition num_mul (v : pynum) (w : float) : float :=
  match v with
  | NInt n => (Z_to_float n * w)%float
  | NFloat x => (x * w)%float
  end.

(** [sum(xs)] over floats: the [int] 0 it starts from is converted at the
    first addition, the additions run left to right. (CPython 3.12 and
    later carry a compensation term along, which stays zero as long as the
    partial sums are exact; the result is then the one below.) *)
Definition py_sum (xs : list float) : float :=
  fold_left PrimFloat.add xs 0%float.

(** Python's conversions between text and numbers are not part of the
    program; the embedding takes them as given. [None] stands for the
    [ValueError] of a text that is not a number. *)
Record text_builtins : Type := {
  float_of_str : string -> option float;
  int_of_str : string -> option Z;
  str_of_float : float -> string;
}.

Section Builtins.
Context (B : text_builtins).

(** [float(v)] *)
Definition py_float (v : pyval) : result float :=
  match v with
  | PyNone => Raise TypeError
  | PyBool b => Ok (if b then 1%float else 0%float)
  | PyInt n => float_of_int n
  | PyFloat x => Ok x
  | PyStr s => match float_of_str B s with Some x => Ok x | None => Raise ValueError end
  end.

(** [int(v)] *)
Definition py_int (v : pyval) : result Z :=
  match v with
  | PyNone => Raise TypeError
  | PyBool b => Ok (if b then 1 else 0)
  | PyInt n => Ok n
  | PyFloat x => int_of_float x
  | PyStr s => match int_of_str B s with Some n => Ok n | None => Raise ValueError end
  end.

(** [str(v)] *)
Definition py_str (v : pyval) : string :=
  match v with
  | PyNone => "None"
  | PyBool b => if b then "True" else "False"
  | PyInt n => str_of_int n
  | PyFloat x => str_of_float B x
  | PyStr s => s
  end.
End Builtins.

(** [bool(v)]: truthiness. A NaN is not equal to zero, hence true. *)
Definition py_bool (v : pyval) : bool :=
  match v with
  | PyNone => false
  | PyBool b => b
  | PyInt n => negb (n =? 0)
  | PyFloat x => negb (x =? 0)%float
  | PyStr s => negb (String.eqb s "")
  end.

(** ** Constants *)

Definition SANCTIONED_COUNTRIES : gset string :=
  {["ir"; "kp"; "ru"; "sy"; "sd"; "by"; "cu"; "mm"]}.
Definition HIGH_RISK_COUNTRIES : gset string :=
  {["ir"; "kp"; "ru"; "sy"; "sd"; "pk"; "af"; "by"; "cu"; "mm"; "iq"; "ly"; "ye"; "so"]}.
Definition NORMAL_COUNTRIES : gset string :=
  {["ae"; "sa"; "eg"; "us"; "uk"; "de"; "fr"; "jp"; "sg"; "au"; "ca"; "ch"; "nl"]}.

Definition REPORTING_THRESHOLD : Z := 10000.
Definition STRUCTURING_LIMIT : Z := 9500.

Definition FATF_RED_FLAGS : gmap string string :=
  list_to_map [
    ("sanctioned_country",    "Transaction to/from FATF sanctioned jurisdiction");
    ("high_risk_country",     "Destination is FATF high-risk jurisdiction");
    ("night_transaction",     "Transaction executed during unusual hours (00:00–05:59)");
    ("threshold_breach",      "Amount exceeds mandatory reporting threshold ($10,000)");
    ("structuring_suspected", "Amount near reporting threshold — possible structuring");
    ("new_account_large",     "Large transaction from recently opened account");
    ("high_velocity",         "Abnormally high transaction frequency in 30-day period");
    ("incomplete_kyc",        "Customer identity not fully verified (incomplete KYC)");
    ("repeat_offender",       "Customer has prior suspicious activity on record");
    ("crypto_highrisk",       "Cryptocurrency transfer to high-risk jurisdiction");
    ("cash_threshold",        "Large cash transaction near reporting threshold");
    ("pep_linked",            "Customer linked to Politically Exposed Person (PEP)");
    ("round_amount",          "Suspiciously round transaction amount");
    ("multiple_countries",    "Transactions to multiple countries in short period")
  ].

(** ** Feature extraction *)

Record FeatureSet : Type := {
  amount : float;
  country : string;
  tx_type : string;
  hour : Z;
  tx_count : Z;
  account_age : Z;
  kyc_status : Z;
  prev_flagged : bool;
  is_pep : bool;
  is_sanctioned : bool;
  is_high_risk : bool;
  is_night : bool;
  above_threshold : bool;
  near_threshold : bool;
  is_new_account : bool;
  is_high_velocity : bool;
  is_round_amount : bool;
  kyc_incomplete : bool;
}.

(** [data.get(key, dflt)] *)
Definition dict_get (data : gmap string pyval) (key : string) (dflt : pyval) : pyval :=
  default dflt (data !! key).

(** [amount > 1000 and amount % 1000 == 0]; the right operand is only
    evaluated when the left one holds. *)
Definition round_amount_test (amount : float) : result bool :=
  if float_gt_int amount 1000 then
    d ← float_of_int 1000;
    r ← float_mod amount d;
    mret (float_eq_int r 0)
  else mret false.

Definition extract_features (B : text_builtins) (data : gmap string pyval)
  : result FeatureSet :=
  amount ← py_float B (dict_get data "amount" (PyInt 0));
  let country := lower (py_str B (dict_get data "country" (PyStr ""))) in
  let tx_type := lower (py_str B (dict_get data "type" (PyStr ""))) in
  hour ← py_int B (dict_get data "hour" (PyInt 12));
  tx_count ← py_int B (dict_get data "tx_count_30d" (PyInt 0));
  account_age ← py_int B (dict_get data "account_age_months" (PyInt 12));
  kyc_status ← py_int B (dict_get data "kyc_status" (PyInt 1));
  let prev_flagged := py_bool (dict_get data "previously_flagged" (PyBool false)) in
  let is_pep := py_bool (dict_get data "is_pep" (PyBool false)) in
  is_round ← round_amount_test amount;
  mret {|
    amount := amount;
    country := country;
    tx_type := tx_type;
    hour := hour;
    tx_count := tx_count;
    account_age := account_age;
    kyc_status := kyc_status;
    prev_flagged := prev_flagged;
    is_pep := is_pep;
    is_sanctioned := bool_decide (country ∈ SANCTIONED_COUNTRIES);
    is_high_risk := bool_decide (country ∈ HIGH_RISK_COUNTRIES);
    is_night := hour <? 6;
    above_threshold := float_ge_int amount REPORTING_THRESHOLD;
    near_threshold :=
      float_ge_int amount STRUCTURING_LIMIT && float_lt_int amount REPORTING_THRESHOLD;
    is_new_account := account_age <? 3;
    is_high_velocity := 15 <? tx_count;
    is_round_amount := is_round;
    kyc_incomplete := kyc_status =? 0;
  |}.

(** ** Decision trees *)

(** Tree 1: sanctions and transaction amount. *)
Definition tree_sanctions_amount (f : FeatureSet) : pynum :=
  let score := 0%float in
  let score := if is_sanctioned f then (score + 45)%float
               else if is_high_risk f then (score + 20)%float
               else score in
  let score := if float_gt_int (amount f) 100000 then (score + 25)%float
               else if float_gt_int (amount f) 50000 then (score + 18)%float
               else if float_gt_int (amount f) 10000 then (score + 10)%float
               else score in
  let score := if is_night f then (score + 15)%float else score in
  let score := if above_threshold f then (score + 10)%float else score in
  py_min (NFloat score) 100.

(** Tree 2: account age and behavioural patterns. *)
Definition tree_account_behavior (f : FeatureSet) : pynum :=
  let score := 0%float in
  let score := if is_new_account f then (score + 30)%float else score in
  let score := if is_high_velocity f then (score + 20)%float else score in
  let score := if prev_flagged f then (score + 30)%float else score in
  let score := if kyc_incomplete f then (score + 25)%float else score in
  let score := if is_pep f then (score + 20)%float else score in
  let score := if is_round_amount f then (score + 10)%float else score in
  py_min (NFloat score) 100.

(** Tree 3: transaction type and country combination. *)
Definition tree_type_country_combo (f : FeatureSet) : pynum :=
  let score := 0%float in
  let score := if String.eqb (tx_type f) "crypto" && is_high_risk f
               then (score + 55)%float else score in
  let score := if String.eqb (tx_type f) "cash" && near_threshold f
               then (score + 40)%float else score in
  let score := if String.eqb (tx_type f) "wire" && is_sanctioned f
               then (score + 50)%float else score in
  let score := if String.eqb (tx_type f) "insurance" && float_gt_int (amount f) 100000
               then (score + 25)%float else score in
  let score := if String.eqb (tx_type f) "crypto" && is_sanctioned f
               then (score + 60)%float else score in
  let score := if is_high_risk f && is_night f
               then (score + 20)%float else score in
  py_min (NFloat score) 100.

(** Tree 4: KYC and transaction velocity. *)
Definition tree_kyc_velocity (f : FeatureSet) : pynum :=
  let score := 0%float in
  let score := if kyc_incomplete f && float_gt_int (amount f) 5000
               then (score + 40)%float else score in
  let score := if is_high_velocity f && is_new_account f
               then (score + 40)%float else score in
  let score := if prev_flagged f && float_gt_int (amount f) 10000
               then (score + 35)%float else score in
  let score := if is_pep f && above_threshold f
               then (score + 30)%float else score in
  let score := if near_threshold f then (score + 15)%float else score in
  py_min (NFloat score) 100.

(** [sum(signals)] over booleans: the number of true ones. *)
Definition sum_bools (signals : list bool) : Z :=
  fold_left (fun acc (b : bool) => acc + (if b then 1 else 0)) signals 0.

(** Tree 5: anomaly detection on the combined risk signals. *)
Definition tree_anomaly_isolation (f : FeatureSet) : pynum :=
  let risk_signals := [
    is_night f;
    is_new_account f;
    float_gt_int (amount f) 25000;
    is_high_risk f;
    prev_flagged f;
    kyc_incomplete f;
    is_high_velocity f;
    is_pep f
  ] in
  let combo_score := sum_bools risk_signals * 12 in
  let combo_score := if 4 <=? sum_bools risk_signals then combo_score + 15
                     else combo_score in
  py_min (NInt combo_score) 100.

(** ** Random forest ensemble *)

Module Prediction.
Record t : Type := {
  score : Z;
  risk_level : string;
  trees : list (string * Z);
}.
End Prediction.

(** The conditional expression that turns the final score into a tier. *)
Definition risk_level_of_score (final_score : Z) : string :=
  if 80 <=? final_score then "CRITICAL"
  else if 60 <=? final_score then "HIGH"
  else if 35 <=? final_score then "MEDIUM"
  else "LOW".

(** The [trees] dictionary, in insertion order: name, tree score, weight. *)
Definition forest (features : FeatureSet) : list (string * (pynum * float)) := [
  ("Sanctions & Amount",   (tree_sanctions_amount features,   0.25%float));
  ("Account Behavior",     (tree_account_behavior features,   0.20%float));
  ("Type & Country Combo", (tree_type_country_combo features, 0.25%float));
  ("KYC & Velocity",       (tree_kyc_velocity features,       0.15%float));
  ("Anomaly Detection",    (tree_anomaly_isolation features,  0.15%float))
].

Definition random_forest_predict (features : FeatureSet) : result Prediction.t :=
  let trees := forest features in
  let weighted_score := py_sum (map (fun '(_, (score, weight)) => num_mul score weight) trees) in
  final_score ← py_round (py_min (NFloat weighted_score) 100);
  let risk_level := risk_level_of_score final_score in
  rounded ← mapM (fun '(name, (score, _)) => r ← py_round score; mret (name, r)) trees;
  mret {|
    Prediction.score := final_score;
    Prediction.risk_level := risk_level;
    Prediction.trees := rounded;
  |}.

(** ** Flag detection *)

Module Flag.
Record t : Type := {
  code : string;
  severity : string;
  description : string;
  fatf_ref : string;
}.
End Flag.

(** [flags.append(x)] *)
Definition append {A} (flags : list A) (x : A) : list A := flags ++ [x].

(** The sentinel of a transaction without a red flag. *)
Definition clean_flag : Flag.t := {|
  Flag.code := "clean";
  Flag.severity := "NONE";
  Flag.description := "No significant FATF red flags detected";
  Flag.fatf_ref := "N/A";
|}.

(** [FATF_RED_FLAGS[key]] is read with the total lookup [!!!]:
    [FATF_RED_FLAGS_keys] below shows every key used to be present. *)
Definition detect_flags (features : FeatureSet) : list Flag.t :=
  let flags := [] in
  let flags :=
    if is_sanctioned features then
      append flags {| Flag.code := "sanctioned_country"; Flag.severity := "CRITICAL";
                      Flag.description := FATF_RED_FLAGS !!! "sanctioned_country";
                      Flag.fatf_ref := "FATF Recommendation 6" |}
    else flags in
  let flags :=
    if is_high_risk features && negb (is_sanctioned features) then
      append flags {| Flag.code := "high_risk_country"; Flag.severity := "HIGH";
                      Flag.description := FATF_RED_FLAGS !!! "high_risk_country";
                      Flag.fatf_ref := "FATF Recommendation 19" |}
    else flags in
  let flags :=
    if is_night features then
      append flags {| Flag.code := "night_transaction"; Flag.severity := "MEDIUM";
                      Flag.description := FATF_RED_FLAGS !!! "night_transaction";
                      Flag.fatf_ref := "FATF Typologies Report 2023" |}
    else flags in
  let flags :=
    if above_threshold features then
      append flags {| Flag.code := "threshold_breach"; Flag.severity := "HIGH";
                      Flag.description := FATF_RED_FLAGS !!! "threshold_breach";
                      Flag.fatf_ref := "FRA Law 161/2024 Art. 14" |}
    else flags in
  let flags :=
    if near_threshold features then
      append flags {| Flag.code := "structuring_suspected"; Flag.severity := "HIGH";
                      Flag.description := FATF_RED_FLAGS !!! "structuring_suspected";
                      Flag.fatf_ref := "FATF Recommendation 3" |}
    else flags in
  let flags :=
    if is_new_account features && float_gt_int (amount features) 5000 then
      append flags {| Flag.code := "new_account_large"; Flag.severity := "HIGH";
                      Flag.description := FATF_RED_FLAGS !!! "new_account_large";
                      Flag.fatf_ref := "FATF Recommendation 10" |}
    else flags in
  let flags :=
    if is_high_velocity features then
      append flags {| Flag.code := "high_velocity"; Flag.severity := "MEDIUM";
                      Flag.description := FATF_RED_FLAGS !!! "high_velocity";
                      Flag.fatf_ref := "FATF Typologies Report 2023" |}
    else flags in
  let flags :=
    if kyc_incomplete features then
      append flags {| Flag.code := "incomplete_kyc"; Flag.severity := "HIGH";
                      Flag.description := FATF_RED_FLAGS !!! "incomplete_kyc";
                      Flag.fatf_ref := "FATF Recommendation 10" |}
    else flags in
  let flags :=
    if prev_flagged features then
      append flags {| Flag.code := "repeat_offender"; Flag.severity := "HIGH";
                      Flag.description := FATF_RED_FLAGS !!! "repeat_offender";
                      Flag.fatf_ref := "FRA Law 161/2024 Art. 18" |}
    else flags in
  let flags :=
    if String.eqb (tx_type features) "crypto" && is_high_risk features then
      append flags {| Flag.code := "crypto_highrisk"; Flag.severity := "CRITICAL";
                      Flag.description := FATF_RED_FLAGS !!! "crypto_highrisk";
                      Flag.fatf_ref := "FATF Recommendation 15" |}
    else flags in
  let flags :=
    if is_pep features then
      append flags {| Flag.code := "pep_linked"; Flag.severity := "HIGH";
                      Flag.description := FATF_RED_FLAGS !!! "pep_linked";
                      Flag.fatf_ref := "FATF Recommendation 12" |}
    else flags in
  let flags :=
    if is_round_amount features && float_gt_int (amount features) 5000 then
      append flags {| Flag.code := "round_amount"; Flag.severity := "LOW";
                      Flag.description := FATF_RED_FLAGS !!! "round_amount";
                      Flag.fatf_ref := "FATF Typologies Report 2023" |}
    else flags in
  match flags with
  | [] => append flags clean_flag
  | _ => flags
  end.

(** ** Recommended action *)

Module Recommendation.
Record t : Type := {
  action : string;
  steps : list string;
  str_required : bool;
  edd_required : bool;
}.
#[global] Instance inhabited : Inhabited t :=
  populate {| action := ""; steps := []; str_required := false; edd_required := false |}.
End Recommendation.

Definition actions : gmap string Recommendation.t :=
  list_to_map [
    ("CRITICAL", {|
       Recommendation.action := "FREEZE & REPORT";
       Recommendation.steps := [
         "Immediately freeze the transaction";
         "File STR with Egyptian Financial Intelligence Unit (EIFIU) within 24 hours";
         "Escalate to MLRO and senior management";
         "Apply Enhanced Due Diligence (EDD) on customer";
         "Document all findings with audit trail";
         "Do NOT tip off the customer (tipping-off offence under FRA 161/2024)"
       ];
       Recommendation.str_required := true;
       Recommendation.edd_required := true |});
    ("HIGH", {|
       Recommendation.action := "REVIEW & ESCALATE";
       Recommendation.steps := [
         "Place transaction on hold pending review";
         "Escalate to compliance supervisor";
         "Apply Enhanced Due Diligence (EDD)";
         "Consider filing STR if suspicion confirmed";
         "Request additional documentation from customer"
       ];
       Recommendation.str_required := false;
       Recommendation.edd_required := true |});
    ("MEDIUM", {|
       Recommendation.action := "ENHANCED MONITORING";
       Recommendation.steps := [
         "Allow transaction but flag for monitoring";
         "Apply Standard Customer Due Diligence (CDD)";
         "Request source of funds documentation";
         "Increase monitoring frequency for this customer"
       ];
       Recommendation.str_required := false;
       Recommendation.edd_required := false |});
    ("LOW", {|
       Recommendation.action := "PROCEED — STANDARD MONITORING";
       Recommendation.steps := [
         "Transaction may proceed";
         "Apply standard CDD procedures";
         "Continue routine monitoring"
       ];
       Recommendation.str_required := false;
       Recommendation.edd_required := false |})
  ].

(** [actions.get(risk_level, actions["LOW"])]; the flags are not used. *)
Definition get_recommendation (risk_level : string) (flags : list Flag.t)
  : Recommendation.t :=
  default (actions !!! "LOW") (actions !! risk_level).

(** ** Main analysis *)

(** What one call reads from outside the program: the UTC clock, already
    in ISO format, and the draw of [random.randint(10000, 99999)]. *)
Record env : Type := {
  utcnow_isoformat : string;
  randint_10000_99999 : Z;
}.

Module Analysis.
Record t : Type := {
  transaction_id : pyval;
  timestamp : string;
  score : Z;
  risk_level : string;
  tree_scores : list (string * Z);
  flags : list Flag.t;
  flag_count : Z;
  recommendation : Recommendation.t;
  model_version : string;
  compliance_ref : string;
}.
End Analysis.

Definition analyze_transaction (B : text_builtins) (E : env) (data : gmap string pyval)
  : result Analysis.t :=
  features ← extract_features B data;
  prediction ← random_forest_predict features;
  let flags := detect_flags features in
  let recommendation := get_recommendation (Prediction.risk_level prediction) flags in
  mret {|
    Analysis.transaction_id :=
      dict_get data "transaction_id"
        (PyStr ("TXN-" ++ str_of_int (randint_10000_99999 E)));
    Analysis.timestamp := utcnow_isoformat E;
    Analysis.score := Prediction.score prediction;
    Analysis.risk_level := Prediction.risk_level prediction;
    Analysis.tree_scores := Prediction.trees prediction;
    Analysis.flags := flags;
    Analysis.flag_count :=
      Z.of_nat (length (filter (fun f => Flag.code f ≠ "clean") flags));
    Analysis.recommendation := recommendation;
    Analysis.model_version := "ShieldAML-RF-v1.0";
    Analysis.compliance_ref := "FATF 2023 · FRA Law 161/2024 · UN Sanctions";
  |}.

(** ** KYC analysis *)

Definition SANCTIONS_LIST : list string := [
  "kim jong"; "putin vladimir"; "khamenei"; "al-bashir"; "lukashenko";
  "maduro nicolas"; "al-assad"; "gaddafi"
].

Module KYC.
Record t : Type := {
  customer_name : pyval;
  risk_score : Z;
  risk_level : string;
  sanctions_match : bool;
  is_pep : bool;
  high_risk_nationality : bool;
  cdd_level : string;
  str_required : bool;
  timestamp : string;
}.
End KYC.

Definition analyze_kyc (B : text_builtins) (E : env) (data : gmap string pyval) : KYC.t :=
  let name := lower (py_str B (dict_get data "name" (PyStr ""))) in
  let nationality := lower (py_str B (dict_get data "nationality" (PyStr ""))) in
  let occupation := lower (py_str B (dict_get data "occupation" (PyStr ""))) in
  let country := lower (py_str B (dict_get data "country" (PyStr ""))) in
  let pep_keywords := [
    "minister"; "president"; "senator"; "official"; "politician";
    "ambassador"; "governor"; "parliament"; "general"; "director general"
  ] in
  let is_pep := existsb (fun kw => py_in_str kw occupation) pep_keywords in
  let sanctions_hit := existsb (fun name_part => py_in_str name_part name) SANCTIONS_LIST in
  let high_risk_nat :=
    bool_decide (nationality ∈ (lower <$> elements HIGH_RISK_COUNTRIES)) in
  let risk_score := 0 in
  let risk_score := if sanctions_hit then risk_score + 90 else risk_score in
  let risk_score := if is_pep then risk_score + 40 else risk_score in
  let risk_score := if high_risk_nat then risk_score + 25 else risk_score in
  let risk_level :=
    if 80 <=? risk_score then "CRITICAL"
    else if 40 <=? risk_score then "HIGH"
    else if 20 <=? risk_score then "MEDIUM"
    else "LOW" in
  let cdd_level :=
    if bool_decide (risk_level ∈ ["CRITICAL"; "HIGH"]) then "EDD" else "Standard CDD" in
  {|
    KYC.customer_name := dict_get data "name" PyNone;
    KYC.risk_score := Z.min risk_score 100;
    KYC.risk_level := risk_level;
    KYC.sanctions_match := sanctions_hit;
    KYC.is_pep := is_pep;
    KYC.high_risk_nationality := high_risk_nat;
    KYC.cdd_level := cdd_level;
    KYC.str_required := sanctions_hit;
    KYC.timestamp := utcnow_isoformat E;
  |}.

(** ** Auxiliary definitions for the proofs *)

(** A float that [round] accepts: neither a NaN nor an infinity. *)
Definition finite_float (x : float) : bool :=
  negb (is_nan x) && negb (is_infinity x).

(** The values each tree can return. *)
Definition tree_sanctions_amount_values : list pynum :=
  [NFloat 0; NFloat 10; NFloat 15; NFloat 18; NFloat 20; NFloat 25; NFloat 28; NFloat 30; NFloat 33; NFloat 35; NFloat 38; NFloat 40; NFloat 43; NFloat 45; NFloat 48; NFloat 50; NFloat 53; NFloat 55; NFloat 60; NFloat 63; NFloat 65; NFloat 70; NFloat 73; NFloat 78; NFloat 80; NFloat 85; NFloat 88; NFloat 95].
Definition tree_account_behavior_values : list pynum :=
  [NFloat 0; NFloat 10; NFloat 20; NFloat 25; NFloat 30; NFloat 35; NFloat 40; NFloat 45; NFloat 50; NFloat 55; NFloat 60; NFloat 65; NFloat 70; NFloat 75; NFloat 80; NFloat 85; NFloat 90; NFloat 95; NFloat 100; NInt 100].
Definition tree_type_country_combo_values : list pynum :=
  [NFloat 0; NFloat 20; NFloat 25; NFloat 40; NFloat 45; NFloat 50; NFloat 55; NFloat 60; NFloat 65; NFloat 70; NFloat 75; NFloat 80; NFloat 85; NFloat 90; NFloat 95; NFloat 100; NInt 100].
Definition tree_kyc_velocity_values : list pynum :=
  [NFloat 0; NFloat 15; NFloat 30; NFloat 35; NFloat 40; NFloat 45; NFloat 50; NFloat 55; NFloat 65; NFloat 70; NFloat 75; NFloat 80; NFloat 85; NFloat 90; NFloat 95; NInt 100].
Definition tree_anomaly_isolation_values : list pynum :=
  [NInt 0; NInt 12; NInt 24; NInt 36; NInt 63; NInt 75; NInt 87; NInt 99; NInt 100].

(** The twelve red-flag rules of [detect_flags], in the order of the
    checks: the predicate and the flag it raises. *)
Definition red_flag (code severity fatf_ref : string) : Flag.t := {|
  Flag.code := code;
  Flag.severity := severity;
  Flag.description := FATF_RED_FLAGS !!! code;
  Flag.fatf_ref := fatf_ref;
|}.

Definition red_flag_rules (f : FeatureSet) : list (bool * Flag.t) := [
  (is_sanctioned f,
   red_flag "sanctioned_country" "CRITICAL" "FATF Recommendation 6");
  (is_high_risk f && negb (is_sanctioned f),
   red_flag "high_risk_country" "HIGH" "FATF Recommendation 19");
  (is_night f,
   red_flag "night_transaction" "MEDIUM" "FATF Typologies Report 2023");
  (above_threshold f,
   red_flag "threshold_breach" "HIGH" "FRA Law 161/2024 Art. 14");
  (near_threshold f,
   red_flag "structuring_suspected" "HIGH" "FATF Recommendation 3");
  (is_new_account f && float_gt_int (amount f) 5000,
   red_flag "new_account_large" "HIGH" "FATF Recommendation 10");
  (is_high_velocity f,
   red_flag "high_velocity" "MEDIUM" "FATF Typologies Report 2023");
  (kyc_incomplete f,
   red_flag "incomplete_kyc" "HIGH" "FATF Recommendation 10");
  (prev_flagged f,
   red_flag "repeat_offender" "HIGH" "FRA Law 161/2024 Art. 18");
  (String.eqb (tx_type f) "crypto" && is_high_risk f,
   red_flag "crypto_highrisk" "CRITICAL" "FATF Recommendation 15");
  (is_pep f,
   red_flag "pep_linked" "HIGH" "FATF Recommendation 12");
  (is_round_amount f && float_gt_int (amount f) 5000,
   red_flag "round_amount" "LOW" "FATF Typologies Report 2023")
].

(** The twelve predicates on their own. *)
Definition red_flag_predicates (f : FeatureSet) : list bool :=
  fst <$> red_flag_rules f.

(** The flags of the rules whose predicate holds, in order. *)
Fixpoint raised (rules : list (bool * Flag.t)) : list Flag.t :=
  match rules with
  | [] => []
  | (c, x) :: rules' => if c then x :: raised rules' else raised rules'
  end.

(** The codes of a flag list. *)
Definition codes (flags : list Flag.t) : list string := Flag.code <$> flags.

(** What an analysis says about the transaction: every field but the
    timestamp and the transaction id. *)
Definition assessment (r : Analysis.t) :=
  (Analysis.score r, Analysis.risk_level r, Analysis.tree_scores r,
   Analysis.flags r, Analysis.flag_count r, Analysis.recommendation r,
   Analysis.model_version r, Analysis.compliance_ref r).

(** The two scenarios of the specification. *)
Definition scenario_A : gmap string pyval :=
  list_to_map [
    ("amount", PyInt 125000); ("type", PyStr "wire"); ("country", PyStr "ir");
    ("hour", PyInt 3); ("tx_count_30d", PyInt 8); ("account_age_months", PyInt 2);
    ("kyc_status", PyInt 0); ("previously_flagged", PyBool false);
    ("is_pep", PyBool false)
  ].

Definition scenario_B : gmap string pyval :=
  list_to_map [
    ("amount", PyInt 9800); ("type", PyStr "cash"); ("country", PyStr "eg");
    ("hour", PyInt 16); ("tx_count_30d", PyInt 7); ("account_age_months", PyInt 12);
    ("kyc_status", PyInt 1); ("previously_flagged", PyBool false);
    ("is_pep", PyBool false)
  ].

(** A value that [float()] converts, and one that [int()] converts,
    whatever the text conversions do: the numbers. *)
Definition float_convertible (v : pyval) : bool :=
  match v with
  | PyBool _ | PyFloat _ => true
  | PyInt n => is_ok (float_of_int n)
  | PyNone | PyStr _ => false
  end.

Definition int_convertible (v : pyval) : bool :=
  match v with
  | PyBool _ | PyInt _ => true
  | PyFloat x => finite_float x
  | PyNone | PyStr _ => false
  end.

(** A raw dictionary whose numeric fields are each missing or a number. *)
Definition numeric_fields_ok (data : gmap string pyval) : Prop :=
  float_convertible (dict_get data "amount" (PyInt 0)) = true ∧
  Forall (fun key => int_convertible (dict_get data key (PyInt 0)) = true)
    ["hour"; "tx_count_30d"; "account_age_months"; "kyc_status"].

(** A value that [str()] converts. [py_str] leaves out that CPython, from
    3.11 on, raises [ValueError] for an [int] of more than 4300 digits; the
    statements about when a result is returned are made for values that
    [str()] converts in the code as well. *)
Definition str_convertible (v : pyval) : bool :=
  match v with
  | PyInt n => Z.abs n <? 10 ^ 4300
  | PyNone | PyBool _ | PyFloat _ | PyStr _ => true
  end.

(** A raw dictionary in which every field that is converted is missing or
    holds a value that its conversion accepts. *)
Definition convertible_fields (data : gmap string pyval) : Prop :=
  numeric_fields_ok data ∧
  str_convertible (dict_get data "country" (PyStr "")) = true ∧
  str_convertible (dict_get data "type" (PyStr "")) = true.

(** Text conversions that reject every text; used where a concrete
    instance is needed. *)
Definition no_text_numbers : text_builtins := {|
  float_of_str := fun _ => None;
  int_of_str := fun _ => None;
  str_of_float := fun _ => "";
|}.

Definition sample_env : env := {|
  utcnow_isoformat := "2024-01-01T00:00:00";
  randint_10000_99999 := 12345;
|}.

(** ** The request models of the routes *)

(** An [Optional[str]] field as a Python value. *)
Definition py_optional (o : option string) : pyval :=
  match o with
  | Some s => PyStr s
  | None => PyNone
  end.

(** [TransactionInput] of [routes/transactions.py]: a validated request. *)
Module TransactionInput.
Record t : Type := {
  transaction_id : option string;
  customer_id : option string;
  customer_name : option string;
  amount : float;
  currency : option string;
  type : string;
  country : string;
  hour : Z;
  tx_count_30d : Z;
  account_age_months : Z;
  kyc_status : Z;
  previously_flagged : bool;
  is_pep : bool;
}.

(** [tx.dict()]: every field is a key, also the ones left at [None]. *)
Definition dict (tx : t) : gmap string pyval :=
  list_to_map [
    ("transaction_id", py_optional (transaction_id tx));
    ("customer_id", py_optional (customer_id tx));
    ("customer_name", py_optional (customer_name tx));
    ("amount", PyFloat (amount tx));
    ("currency", py_optional (currency tx));
    ("type", PyStr (type tx));
    ("country", PyStr (country tx));
    ("hour", PyInt (hour tx));
    ("tx_count_30d", PyInt (tx_count_30d tx));
    ("account_age_months", PyInt (account_age_months tx));
    ("kyc_status", PyInt (kyc_status tx));
    ("previously_flagged", PyBool (previously_flagged tx));
    ("is_pep", PyBool (is_pep tx))
  ].
End TransactionInput.

(** [KYCInput] of [routes/kyc.py]. *)
Module KYCInput.
Record t : Type := {
  name : string;
  nationality : option string;
  occupation : option string;
  country : option string;
  dob : option string;
  id_number : option string;
}.

(** [data.dict()] *)
Definition dict (data : t) : gmap string pyval :=
  list_to_map [
    ("name", PyStr (name data));
    ("nationality", py_optional (nationality data));
    ("occupation", py_optional (occupation data));
    ("country", py_optional (country data));
    ("dob", py_optional (dob data));
    ("id_number", py_optional (id_number data))
  ].
End KYCInput.

(** The response of [check_kyc]. *)
Module KYCResponse.
Record t : Type := {
  success : bool;
  result : KYC.t;
}.
End KYCResponse.


(** The keys that [extract_features] reads. *)
Definition feature_keys : list string := [
  "amount"; "country"; "type"; "hour"; "tx_count_30d"; "account_age_months";
  "kyc_status"; "previously_flagged"; "is_pep"
].

(** The keys that [analyze_kyc] reads for its assessment. *)
Definition kyc_keys : list string := ["name"; "nationality"; "occupation"].

(** The names of the five trees, in the order of the [trees] dictionary. *)
Definition tree_names : list string := [
  "Sanctions & Amount"; "Account Behavior"; "Type & Country Combo";
  "KYC & Velocity"; "Anomaly Detection"
].

(** Every value a tree can return. *)
Definition tree_values : list pynum :=
  tree_sanctions_amount_values ++ tree_account_behavior_values ++
  tree_type_country_combo_values ++ tree_kyc_velocity_values ++
  tree_anomaly_isolation_values.

Definition score_in_range (n : Z) : bool := (0 <=? n) && (n <=? 100).

(** The codes of the twelve red flags, in the order of the checks. *)
Definition red_flag_codes : list string := [
  "sanctioned_country"; "high_risk_country"; "night_transaction"; "threshold_breach";
  "structuring_suspected"; "new_account_large"; "high_velocity"; "incomplete_kyc";
  "repeat_offender"; "crypto_highrisk"; "pep_linked"; "round_amount"
].

(** * Properties *)

(** ** The ensemble never raises *)

Ltac find_in_list := repeat first [left; reflexivity | right].

(** Membership in an explicit list. *)
Ltac elem_of_explicit :=
  repeat first [apply list_elem_of_here | apply list_elem_of_further].

Lemma tree_sanctions_amount_in f :
  In (tree_sanctions_amount f) tree_sanctions_amount_values.
Proof.
  unfold tree_sanctions_amount.
  destruct (is_sanctioned f), (is_high_risk f), (float_gt_int (amount f) 100000),
    (float_gt_int (amount f) 50000), (float_gt_int (amount f) 10000),
    (is_night f), (above_threshold f); vm_compute; find_in_list.
Qed.

Lemma tree_account_behavior_in f :
  In (tree_account_behavior f) tree_account_behavior_values.
Proof.
  unfold tree_account_behavior.
  destruct (is_new_account f), (is_high_velocity f), (prev_flagged f),
    (kyc_incomplete f), (is_pep f), (is_round_amount f); vm_compute; find_in_list.
Qed.

Lemma tree_type_country_combo_in f :
  In (tree_type_country_combo f) tree_type_country_combo_values.
Proof.
  unfold tree_type_country_combo.
  destruct (String.eqb (tx_type f) "crypto"), (String.eqb (tx_type f) "cash"),
    (String.eqb (tx_type f) "wire"), (String.eqb (tx_type f) "insurance"),
    (is_high_risk f), (near_threshold f), (is_sanctioned f),
    (float_gt_int (amount f) 100000), (is_night f); vm_compute; find_in_list.
Qed.

Lemma tree_kyc_velocity_in f :
  In (tree_kyc_velocity f) tree_kyc_velocity_values.
Proof.
  unfold tree_kyc_velocity.
  destruct (kyc_incomplete f), (float_gt_int (amount f) 5000), (is_high_velocity f),
    (is_new_account f), (prev_flagged f), (float_gt_int (amount f) 10000),
    (is_pep f), (above_threshold f), (near_threshold f); vm_compute; find_in_list.
Qed.

Lemma tree_anomaly_isolation_in f :
  In (tree_anomaly_isolation f) tree_anomaly_isolation_values.
Proof.
  unfold tree_anomaly_isolation.
  destruct (is_night f), (is_new_account f), (float_gt_int (amount f) 25000),
    (is_high_risk f), (prev_flagged f), (kyc_incomplete f), (is_high_velocity f),
    (is_pep f); vm_compute; find_in_list.
Qed.

Lemma round_float_ok x : finite_float x = true → ∃ n, round_float x = Ok n.
Proof.
  unfold finite_float, round_float, Prim2SF. intros H.
  apply andb_prop in H as [Hn Hi].
  apply negb_true_iff in Hn, Hi. rewrite Hn, Hi.
  destruct (is_zero x); [eauto|].
  repeat match goal with
         | |- context [let (_, _) := ?t in _] => destruct t
         end.
  match goal with |- context [shr_m ?s] => destruct (shr_m s) end; eauto.
Qed.

Lemma weighted_sum_finite_on_values :
  forallb (fun a5 => forallb (fun a4 => forallb (fun a3 => forallb (fun a2 =>
    forallb (fun a1 => finite_float (py_sum [a1; a2; a3; a4; a5]))
      (map (fun t => num_mul t 0.25%float) tree_sanctions_amount_values))
      (map (fun t => num_mul t 0.20%float) tree_account_behavior_values))
      (map (fun t => num_mul t 0.25%float) tree_type_country_combo_values))
      (map (fun t => num_mul t 0.15%float) tree_kyc_velocity_values))
      (map (fun t => num_mul t 0.15%float) tree_anomaly_isolation_values)
  = true.
Proof. vm_compute. reflexivity. Qed.

Lemma finite_weighted_score f :
  finite_float
    (py_sum (map (fun '(_, (score, weight)) => num_mul score weight) (forest f))) = true.
Proof.
  pose proof weighted_sum_finite_on_values as H.
  repeat setoid_rewrite forallb_forall in H.
  cbn [forest map].
  apply H.
  - apply (in_map (fun t => num_mul t _)), tree_anomaly_isolation_in.
  - apply (in_map (fun t => num_mul t _)), tree_kyc_velocity_in.
  - apply (in_map (fun t => num_mul t _)), tree_type_country_combo_in.
  - apply (in_map (fun t => num_mul t _)), tree_account_behavior_in.
  - apply (in_map (fun t => num_mul t _)), tree_sanctions_amount_in.
Qed.

Lemma py_round_min_ok x : finite_float x = true → ∃ n, py_round (py_min (NFloat x) 100) = Ok n.
Proof.
  intros H. unfold py_min. destruct (float_gt_int x 100); cbn [py_round].
  - eauto.
  - by apply round_float_ok.
Qed.

Lemma py_round_tree_values :
  forallb (fun t => is_ok (py_round t))
    (tree_sanctions_amount_values ++ tree_account_behavior_values ++
     tree_type_country_combo_values ++ tree_kyc_velocity_values ++
     tree_anomaly_isolation_values) = true.
Proof. vm_compute. reflexivity. Qed.

Lemma py_round_tree_ok t :
  In t (tree_sanctions_amount_values ++ tree_account_behavior_values ++
        tree_type_country_combo_values ++ tree_kyc_velocity_values ++
        tree_anomaly_isolation_values) →
  ∃ n, py_round t = Ok n.
Proof.
  intros H. pose proof py_round_tree_values as Hall.
  rewrite forallb_forall in Hall. specialize (Hall t H).
  destruct (py_round t); [eauto | discriminate].
Qed.

Lemma random_forest_predict_total f :
  ∃ p, random_forest_predict f = Ok p ∧
       Prediction.risk_level p = risk_level_of_score (Prediction.score p).
Proof.
  destruct (py_round_min_ok _ (finite_weighted_score f)) as [s Hs].
  destruct (py_round_tree_ok (tree_sanctions_amount f)) as [n1 H1].
  { rewrite !in_app_iff. auto using tree_sanctions_amount_in. }
  destruct (py_round_tree_ok (tree_account_behavior f)) as [n2 H2].
  { rewrite !in_app_iff. auto using tree_account_behavior_in. }
  destruct (py_round_tree_ok (tree_type_country_combo f)) as [n3 H3].
  { rewrite !in_app_iff. auto using tree_type_country_combo_in. }
  destruct (py_round_tree_ok (tree_kyc_velocity f)) as [n4 H4].
  { rewrite !in_app_iff. auto using tree_kyc_velocity_in. }
  destruct (py_round_tree_ok (tree_anomaly_isolation f)) as [n5 H5].
  { rewrite !in_app_iff. auto 10 using tree_anomaly_isolation_in. }
  unfold random_forest_predict. cbv zeta. rewrite Hs.
  cbn [mbind result_bind forest mapM]. rewrite H1, H2, H3, H4, H5.
  cbn [mbind result_bind mret result_ret]. eexists. split; [reflexivity|]. reflexivity.
Qed.

(** ** Tiers *)

Lemma risk_level_of_score_cases s :
  (80 ≤ s ∧ risk_level_of_score s = "CRITICAL") ∨
  (60 ≤ s < 80 ∧ risk_level_of_score s = "HIGH") ∨
  (35 ≤ s < 60 ∧ risk_level_of_score s = "MEDIUM") ∨
  (s < 35 ∧ risk_level_of_score s = "LOW").
Proof.
  unfold risk_level_of_score.
  destruct (Z.leb_spec 80 s); [left; split; [lia | reflexivity] | right].
  destruct (Z.leb_spec 60 s); [left; split; [lia | reflexivity] | right].
  destruct (Z.leb_spec 35 s); [left | right]; (split; [lia | reflexivity]).
Qed.

(** C3: the tier is the image of the final score under the cutoffs
    80 / 60 / 35, each closed below; the boundary scores fall as listed; and
    for every FeatureSet the ensemble returns a prediction whose tier is
    that image, hence one of LOW, MEDIUM, HIGH, CRITICAL. *)
Theorem tier_is_function_of_score :
  (∀ s,
     (risk_level_of_score s = "CRITICAL" ↔ 80 ≤ s) ∧
     (risk_level_of_score s = "HIGH" ↔ 60 ≤ s < 80) ∧
     (risk_level_of_score s = "MEDIUM" ↔ 35 ≤ s < 60) ∧
     (risk_level_of_score s = "LOW" ↔ s < 35)) ∧
  (risk_level_of_score 80 = "CRITICAL" ∧
   risk_level_of_score 79 = "HIGH" ∧ risk_level_of_score 60 = "HIGH" ∧
   risk_level_of_score 59 = "MEDIUM" ∧ risk_level_of_score 35 = "MEDIUM" ∧
   risk_level_of_score 34 = "LOW") ∧
  (∀ f, ∃ p,
     random_forest_predict f = Ok p ∧
     Prediction.risk_level p = risk_level_of_score (Prediction.score p) ∧
     Prediction.risk_level p ∈ ["LOW"; "MEDIUM"; "HIGH"; "CRITICAL"]).
Proof.
  split; [| split].
  - intros s.
    destruct (risk_level_of_score_cases s) as [[H ->] | [[H ->] | [[H ->] | [H ->]]]];
      repeat split; intros; try lia; try discriminate; try reflexivity.
  - repeat split.
  - intros f. destruct (random_forest_predict_total f) as (p & Hp & Ht).
    exists p. split; [exact Hp | split; [exact Ht |]].
    rewrite Ht.
    destruct (risk_level_of_score_cases (Prediction.score p))
      as [[_ ->] | [[_ ->] | [[_ ->] | [_ ->]]]];
      elem_of_explicit.
Qed.

(** ** The two scenarios *)

Lemma scenario_A_analysis B E :
  ∃ r, analyze_transaction B E scenario_A = Ok r ∧
       Analysis.score r = 72 ∧
       Analysis.risk_level r = "HIGH" ∧
       Analysis.tree_scores r =
         [("Sanctions & Amount", 95); ("Account Behavior", 65);
          ("Type & Country Combo", 70); ("KYC & Velocity", 40);
          ("Anomaly Detection", 75)] ∧
       codes (Analysis.flags r) =
         ["sanctioned_country"; "night_transaction"; "threshold_breach";
          "new_account_large"; "incomplete_kyc"; "round_amount"].
Proof. eexists. split; [vm_compute; reflexivity |]. repeat split. Qed.

Lemma scenario_B_analysis B E :
  ∃ f r, extract_features B scenario_B = Ok f ∧
         near_threshold f = true ∧ above_threshold f = false ∧
         analyze_transaction B E scenario_B = Ok r ∧
         Analysis.score r = 12 ∧
         Analysis.risk_level r = "LOW" ∧
         Analysis.tree_scores r =
           [("Sanctions & Amount", 0); ("Account Behavior", 0);
            ("Type & Country Combo", 40); ("KYC & Velocity", 15);
            ("Anomaly Detection", 0)] ∧
         codes (Analysis.flags r) = ["structuring_suspected"].
Proof.
  eexists. eexists. split; [vm_compute; reflexivity |].
  split; [reflexivity |]. split; [reflexivity |].
  split; [vm_compute; reflexivity |]. repeat split.
Qed.

(** The same scenarios with the amount as a [float], as the HTTP route
    hands it over, give the same features. *)
Lemma scenario_float_amount B :
  extract_features B (<["amount" := PyFloat 125000]> scenario_A) =
    extract_features B scenario_A ∧
  extract_features B (<["amount" := PyFloat 9800]> scenario_B) =
    extract_features B scenario_B.
Proof. split; vm_compute; reflexivity. Qed.

(** C1, as stated, fails: on scenario A no run returns CRITICAL or a score
    of 80 or more. *)
Lemma scenario_A_not_critical :
  ¬ ∃ B E r, analyze_transaction B E scenario_A = Ok r ∧
             (Analysis.risk_level r = "CRITICAL" ∨ 80 ≤ Analysis.score r).
Proof.
  intros (B & E & r & Hr & Hc).
  destruct (scenario_A_analysis B E) as (r' & Hr' & Hs & Ht & _).
  rewrite Hr in Hr'. injection Hr' as <-.
  rewrite Hs, Ht in Hc. destruct Hc; [discriminate | lia].
Qed.

(** C1, amended: on scenario A (amount 125000, wire, "ir", hour 3, 8
    transactions, account aged 2 months, KYC incomplete, not previously
    flagged, not a PEP) the analysis returns the final score 72, hence tier
    HIGH, from the tree scores 95, 65, 70, 40 and 75, and its flags
    include "sanctioned_country" and "threshold_breach". *)
Theorem scenario_A_is_high B E :
  ∃ r, analyze_transaction B E scenario_A = Ok r ∧
       Analysis.score r = 72 ∧
       Analysis.risk_level r = "HIGH" ∧
       Analysis.tree_scores r =
         [("Sanctions & Amount", 95); ("Account Behavior", 65);
          ("Type & Country Combo", 70); ("KYC & Velocity", 40);
          ("Anomaly Detection", 75)] ∧
       "sanctioned_country" ∈ codes (Analysis.flags r) ∧
       "threshold_breach" ∈ codes (Analysis.flags r).
Proof.
  destruct (scenario_A_analysis B E) as (r & Hr & Hs & Ht & Htr & Hc).
  exists r. rewrite Hc. repeat split; try assumption; elem_of_explicit.
Qed.

(** C2, as stated, fails: on scenario B no run returns HIGH. *)
Lemma scenario_B_not_high :
  ¬ ∃ B E r, analyze_transaction B E scenario_B = Ok r ∧
             Analysis.risk_level r = "HIGH".
Proof.
  intros (B & E & r & Hr & Hc).
  destruct (scenario_B_analysis B E) as (_ & r' & _ & _ & _ & Hr' & _ & Ht & _).
  rewrite Hr in Hr'. injection Hr' as <-.
  rewrite Ht in Hc. discriminate.
Qed.

(** C2, amended: on scenario B (amount 9800, cash, "eg", hour 16, 7
    transactions, account aged 12 months, KYC verified, not previously
    flagged, not a PEP) the features have near_threshold true and
    above_threshold false, the flags include "structuring_suspected", and
    the analysis returns the final score 12, hence tier LOW: the +40 of
    cash near the threshold weighs 10 and the +15 of Tree 4 weighs 2.25. *)
Theorem scenario_B_is_low B E :
  ∃ f r, extract_features B scenario_B = Ok f ∧
         near_threshold f = true ∧ above_threshold f = false ∧
         analyze_transaction B E scenario_B = Ok r ∧
         "structuring_suspected" ∈ codes (Analysis.flags r) ∧
         Analysis.tree_scores r =
           [("Sanctions & Amount", 0); ("Account Behavior", 0);
            ("Type & Country Combo", 40); ("KYC & Velocity", 15);
            ("Anomaly Detection", 0)] ∧
         Analysis.score r = 12 ∧
         Analysis.risk_level r = "LOW".
Proof.
  destruct (scenario_B_analysis B E) as (f & r & Hf & Hn & Ha & Hr & Hs & Ht & Htr & Hc).
  exists f, r. rewrite Hc. repeat split; try assumption; elem_of_explicit.
Qed.

(** ** Flags *)

Lemma FATF_RED_FLAGS_keys f :
  Forall (fun rule : bool * Flag.t => is_Some (FATF_RED_FLAGS !! Flag.code rule.2))
    (red_flag_rules f).
Proof. repeat constructor; vm_compute; eauto. Qed.

Lemma actions_LOW : is_Some (actions !! "LOW").
Proof. vm_compute. eauto. Qed.

Lemma fold_raise (rules : list (bool * Flag.t)) (flags : list Flag.t) :
  fold_left (fun flags '(c, x) => if (c : bool) then append flags x else flags) rules flags
  = (flags ++ raised rules)%list.
Proof.
  revert flags. induction rules as [| [c x] rules IH]; intros flags; cbn [fold_left raised].
  - by rewrite app_nil_r.
  - rewrite IH. destruct c; [unfold append; by rewrite <- app_assoc | reflexivity].
Qed.

(** [detect_flags] raises the flags of the rules that hold, or the sentinel
    when none does. *)
Lemma detect_flags_raised f :
  detect_flags f =
  match raised (red_flag_rules f) with
  | [] => [clean_flag]
  | flags => flags
  end.
Proof.
  transitivity
    (let flags :=
       fold_left (fun flags '(c, x) => if (c : bool) then append flags x else flags)
         (red_flag_rules f) [] in
     match flags with [] => append flags clean_flag | _ => flags end).
  - reflexivity.
  - cbv zeta. rewrite fold_raise. cbn [app]. by destruct (raised _).
Qed.

Lemma raised_nil rules :
  raised rules = [] ↔ Forall (fun b => b = false) (fst <$> rules).
Proof.
  induction rules as [| [c x] rules IH]; cbn [raised fmap list_fmap fst].
  - split; [constructor | reflexivity].
  - rewrite Forall_cons. destruct c; cbn [fst].
    + split; [discriminate | intros [? _]; discriminate].
    + rewrite IH. tauto.
Qed.

Lemma elem_of_raised x rules :
  x ∈ raised rules ↔ (true, x) ∈ rules.
Proof.
  induction rules as [| [c y] rules IH]; cbn [raised].
  - by rewrite !elem_of_nil.
  - destruct c; rewrite !elem_of_cons, ?IH.
    + split; [intros [-> | ?]; auto | intros [[= ->] | ?]; auto].
    + split; [auto | intros [[=] | ?]; auto].
Qed.

Lemma raised_not_clean f :
  Forall (fun x => Flag.code x ≠ "clean") (raised (red_flag_rules f)).
Proof.
  apply Forall_forall. intros x Hx%elem_of_raised.
  unfold red_flag_rules in Hx. rewrite !elem_of_cons, elem_of_nil in Hx.
  repeat destruct Hx as [[= _ ->] | Hx]; try discriminate. destruct Hx.
Qed.

Lemma filter_not_clean flags :
  Forall (fun x => Flag.code x ≠ "clean") flags →
  filter (fun x => Flag.code x ≠ "clean") flags = flags.
Proof.
  induction 1 as [| x flags Hx _ IH]; [reflexivity |].
  rewrite filter_cons_True by exact Hx. by rewrite IH.
Qed.

Lemma red_flag_predicates_eq f :
  red_flag_predicates f = [
    is_sanctioned f;
    is_high_risk f && negb (is_sanctioned f);
    is_night f;
    above_threshold f;
    near_threshold f;
    is_new_account f && float_gt_int (amount f) 5000;
    is_high_velocity f;
    kyc_incomplete f;
    prev_flagged f;
    String.eqb (tx_type f) "crypto" && is_high_risk f;
    is_pep f;
    is_round_amount f && float_gt_int (amount f) 5000
  ].
Proof. reflexivity. Qed.

Lemma detect_flags_nonempty f : detect_flags f ≠ [].
Proof. rewrite detect_flags_raised. by destruct (raised _). Qed.

Lemma detect_flags_clean_iff f :
  detect_flags f = [clean_flag] ↔ Forall (fun b => b = false) (red_flag_predicates f).
Proof.
  unfold red_flag_predicates. rewrite <- raised_nil, detect_flags_raised.
  pose proof (raised_not_clean f) as Hnc.
  destruct (raised _) as [| x flags]; [tauto |].
  split; [| discriminate].
  intros [= -> ->]. apply Forall_cons in Hnc as [Hx _]. by destruct Hx.
Qed.

Lemma count_not_clean f :
  length (filter (fun x => Flag.code x ≠ "clean") (detect_flags f)) = 0%nat ↔
  detect_flags f = [clean_flag].
Proof.
  rewrite detect_flags_raised.
  pose proof (raised_not_clean f) as Hnc.
  destruct (raised _) as [| x flags].
  - split; reflexivity.
  - rewrite filter_not_clean by exact Hnc. split; [discriminate |].
    intros [= -> ->]. apply Forall_cons in Hnc as [Hx _]. by destruct Hx.
Qed.

Lemma analyze_transaction_inv B E data r :
  analyze_transaction B E data = Ok r →
  ∃ f p, extract_features B data = Ok f ∧ random_forest_predict f = Ok p ∧
         Analysis.score r = Prediction.score p ∧
         Analysis.risk_level r = Prediction.risk_level p ∧
         Analysis.tree_scores r = Prediction.trees p ∧
         Analysis.flags r = detect_flags f ∧
         Analysis.flag_count r =
           Z.of_nat (length (filter (fun x => Flag.code x ≠ "clean") (detect_flags f))) ∧
         Analysis.recommendation r =
           get_recommendation (Prediction.risk_level p) (detect_flags f).
Proof.
  unfold analyze_transaction.
  destruct (extract_features B data) as [f |]; [| discriminate].
  cbn [mbind result_bind].
  destruct (random_forest_predict f) as [p |] eqn:Hp; [| discriminate].
  cbn [mbind result_bind mret result_ret]. intros [= <-].
  exists f, p. repeat (split; [reflexivity || assumption |]). reflexivity.
Qed.

(** C4: the flag list of [detect_flags] is never empty; it is the single
    sentinel "clean" exactly when none of the twelve red-flag predicates
    holds; and an analysis result carries the flag list that [detect_flags]
    returns on the extracted features, with [flag_count] the number of its
    flags whose code is not "clean", which is 0 exactly when that list is
    the sentinel alone. *)
Theorem flags_never_empty :
  (∀ f,
     detect_flags f ≠ [] ∧
     (detect_flags f = [clean_flag] ↔
      Forall (fun b => b = false) (red_flag_predicates f))) ∧
  (∀ B E data r,
     analyze_transaction B E data = Ok r →
     ∃ f,
       extract_features B data = Ok f ∧
       Analysis.flags r = detect_flags f ∧
       Analysis.flags r ≠ [] ∧
       Analysis.flag_count r =
         Z.of_nat (length (filter (fun x => Flag.code x ≠ "clean") (detect_flags f))) ∧
       (Analysis.flag_count r = 0 ↔ detect_flags f = [clean_flag]) ∧
       (Analysis.flag_count r = 0 ↔
        Forall (fun b => b = false) (red_flag_predicates f))).
Proof.
  split.
  - intros f. split; [apply detect_flags_nonempty | apply detect_flags_clean_iff].
  - intros B E data r (f & p & Hf & _ & _ & _ & _ & Hfl & Hct & _)%analyze_transaction_inv.
    exists f. split; [exact Hf |]. split; [exact Hfl |].
    rewrite Hfl, Hct. split; [apply detect_flags_nonempty |]. split; [reflexivity |].
    assert (Hz : Z.of_nat (length (filter (fun x => Flag.code x ≠ "clean") (detect_flags f))) = 0
                 ↔ detect_flags f = [clean_flag]).
    { rewrite <- count_not_clean. lia. }
    split; [exact Hz |]. by rewrite Hz, detect_flags_clean_iff.
Qed.

Lemma flags_never_empty_witness :
  (∃ r, analyze_transaction no_text_numbers sample_env scenario_A = Ok r ∧
        Analysis.flag_count r = 6 ∧
        ∃ f, extract_features no_text_numbers scenario_A = Ok f ∧
             Analysis.flags r = detect_flags f ∧
             Analysis.flag_count r =
               Z.of_nat (length (filter (fun x => Flag.code x ≠ "clean")
                                   (detect_flags f)))) ∧
  (∃ r, analyze_transaction no_text_numbers sample_env ∅ = Ok r ∧
        Analysis.flag_count r = 0 ∧
        ∃ f, extract_features no_text_numbers ∅ = Ok f ∧
             Analysis.flags r = detect_flags f ∧
             detect_flags f = [clean_flag]).
Proof.
  split.
  - assert (H : ∃ r, analyze_transaction no_text_numbers sample_env scenario_A = Ok r ∧
                     Analysis.flag_count r = 6).
    { eexists. split; vm_compute; reflexivity. }
    destruct H as (r & Hr & Hc). exists r. split; [exact Hr |]. split; [exact Hc |].
    destruct (proj2 flags_never_empty _ _ _ _ Hr) as (f & Hf & Hfl & _ & Hct & _).
    exists f. by repeat split.
  - assert (H : ∃ r, analyze_transaction no_text_numbers sample_env ∅ = Ok r ∧
                     Analysis.flag_count r = 0).
    { eexists. split; vm_compute; reflexivity. }
    destruct H as (r & Hr & Hc). exists r. split; [exact Hr |]. split; [exact Hc |].
    destruct (proj2 flags_never_empty _ _ _ _ Hr) as (f & Hf & Hfl & _ & _ & Hz & _).
    exists f. split; [exact Hf |]. split; [exact Hfl |]. by apply Hz.
Defined.

Lemma code_in_detect_flags f c :
  c ≠ "clean" →
  c ∈ codes (detect_flags f) ↔ ∃ x, (true, x) ∈ red_flag_rules f ∧ Flag.code x = c.
Proof.
  intros Hc. rewrite detect_flags_raised. unfold codes. rewrite list_elem_of_fmap.
  destruct (raised (red_flag_rules f)) as [| y flags] eqn:Hr.
  - split.
    + intros (x & -> & Hx). apply list_elem_of_singleton in Hx as ->. by destruct Hc.
    + intros (x & Hx%elem_of_raised & _). rewrite Hr in Hx. by apply elem_of_nil in Hx.
  - rewrite <- Hr. setoid_rewrite elem_of_raised.
    split; intros (x & ? & ?); eauto.
Qed.

Ltac rule_cases H :=
  unfold red_flag_rules in H; rewrite !elem_of_cons, elem_of_nil in H;
  repeat destruct H as [[= H ->] | H]; try discriminate; try contradiction.

(** C5: no flag list holds both "sanctioned_country" and
    "high_risk_country": the first is raised exactly when the country is
    sanctioned, the second exactly when it is high-risk and not sanctioned. *)
Theorem sanctioned_excludes_high_risk f :
  ("sanctioned_country" ∈ codes (detect_flags f) ↔ is_sanctioned f = true) ∧
  ("high_risk_country" ∈ codes (detect_flags f) ↔
   is_high_risk f = true ∧ is_sanctioned f = false) ∧
  ¬ ("sanctioned_country" ∈ codes (detect_flags f) ∧
     "high_risk_country" ∈ codes (detect_flags f)).
Proof.
  assert (Hs : "sanctioned_country" ∈ codes (detect_flags f) ↔ is_sanctioned f = true).
  { rewrite code_in_detect_flags by discriminate. split.
    - intros (x & Hx & Hc). rule_cases Hx. by symmetry.
    - intros H. eexists. split; [unfold red_flag_rules; rewrite H; apply list_elem_of_here |].
      reflexivity. }
  assert (Hh : "high_risk_country" ∈ codes (detect_flags f) ↔
               is_high_risk f = true ∧ is_sanctioned f = false).
  { rewrite code_in_detect_flags by discriminate. split.
    - intros (x & Hx & Hc). rule_cases Hx.
      symmetry in Hx. apply andb_prop in Hx as [? ?%negb_true_iff]. by split.
    - intros [H1 H2]. eexists.
      split; [unfold red_flag_rules; rewrite H1, H2;
              apply list_elem_of_further, list_elem_of_here |].
      reflexivity. }
  split; [exact Hs |]. split; [exact Hh |].
  rewrite Hs, Hh. intros [H1 [_ H2]]. congruence.
Qed.

(** ** Feature extraction *)

Lemma int_of_float_ok x : finite_float x = true → ∃ n, int_of_float x = Ok n.
Proof.
  unfold finite_float, int_of_float, Prim2SF. intros H.
  apply andb_prop in H as [Hn Hi].
  apply negb_true_iff in Hn, Hi. rewrite Hn, Hi.
  destruct (is_zero x); [eauto |].
  repeat match goal with
         | |- context [let (_, _) := ?t in _] => destruct t
         end.
  match goal with |- context [shr_m ?s] => destruct (shr_m s) end; eauto.
Qed.

Lemma py_float_ok B v : float_convertible v = true → ∃ x, py_float B v = Ok x.
Proof.
  destruct v as [| b | n | x | s]; cbn [float_convertible py_float];
    try discriminate; eauto.
  destruct (float_of_int n); [eauto | discriminate].
Qed.

Lemma py_int_ok B v : int_convertible v = true → ∃ n, py_int B v = Ok n.
Proof.
  destruct v as [| b | n | x | s]; cbn [int_convertible py_int];
    try discriminate; eauto using int_of_float_ok.
Qed.

Lemma float_mod_1000_ok x : ∃ r, float_mod x 1000 = Ok r.
Proof.
  unfold float_mod. set (y := Prim2SF 1000). vm_compute in y. subst y. cbv beta iota.
  destruct (Prim2SF x); eauto.
  cbv zeta. match goal with |- context [if ?c then _ else _] => destruct c end; eauto.
Qed.

Lemma round_amount_test_ok x : ∃ b, round_amount_test x = Ok b.
Proof.
  unfold round_amount_test. destruct (float_gt_int x 1000); [| eexists; reflexivity].
  change (float_of_int 1000) with (Ok 1000%float). cbn [mbind result_bind].
  destruct (float_mod_1000_ok x) as [r ->]. eexists. reflexivity.
Qed.

Lemma int_convertible_default data key d d' :
  int_convertible (dict_get data key (PyInt d)) = true →
  int_convertible (dict_get data key (PyInt d')) = true.
Proof. unfold dict_get. by destruct (data !! key). Qed.

Lemma dict_get_missing data key d : data !! key = None → dict_get data key d = d.
Proof. unfold dict_get. by intros ->. Qed.

(** In an extracted FeatureSet the derived fields are the functions of the
    raw ones that [extract_features] writes. *)
Lemma extract_features_inv B data f :
  extract_features B data = Ok f →
  py_float B (dict_get data "amount" (PyInt 0)) = Ok (amount f) ∧
  country f = lower (py_str B (dict_get data "country" (PyStr ""))) ∧
  tx_type f = lower (py_str B (dict_get data "type" (PyStr ""))) ∧
  py_int B (dict_get data "hour" (PyInt 12)) = Ok (hour f) ∧
  py_int B (dict_get data "tx_count_30d" (PyInt 0)) = Ok (tx_count f) ∧
  py_int B (dict_get data "account_age_months" (PyInt 12)) = Ok (account_age f) ∧
  py_int B (dict_get data "kyc_status" (PyInt 1)) = Ok (kyc_status f) ∧
  prev_flagged f = py_bool (dict_get data "previously_flagged" (PyBool false)) ∧
  is_pep f = py_bool (dict_get data "is_pep" (PyBool false)) ∧
  is_sanctioned f = bool_decide (country f ∈ SANCTIONED_COUNTRIES) ∧
  is_high_risk f = bool_decide (country f ∈ HIGH_RISK_COUNTRIES) ∧
  is_night f = (hour f <? 6) ∧
  above_threshold f = float_ge_int (amount f) 10000 ∧
  near_threshold f =
    float_ge_int (amount f) 9500 && float_lt_int (amount f) 10000 ∧
  is_new_account f = (account_age f <? 3) ∧
  is_high_velocity f = (15 <? tx_count f) ∧
  round_amount_test (amount f) = Ok (is_round_amount f) ∧
  kyc_incomplete f = (kyc_status f =? 0).
Proof.
  unfold extract_features.
  destruct (py_float B _) as [a |]; [| discriminate]. cbn [mbind result_bind].
  destruct (py_int B (dict_get data "hour" _)) as [h |]; [| discriminate].
  cbn [mbind result_bind].
  destruct (py_int B (dict_get data "tx_count_30d" _)) as [c |]; [| discriminate].
  cbn [mbind result_bind].
  destruct (py_int B (dict_get data "account_age_months" _)) as [g |]; [| discriminate].
  cbn [mbind result_bind].
  destruct (py_int B (dict_get data "kyc_status" _)) as [k |]; [| discriminate].
  cbn [mbind result_bind].
  destruct (round_amount_test a) as [r |] eqn:Hr; [| discriminate].
  cbn [mbind result_bind mret result_ret]. intros [= <-].
  cbn. rewrite Hr. repeat split.
Qed.

(** C6, as stated, fails: a present but invalid value is not replaced by
    the default. With [None] for the amount, no FeatureSet is returned. *)
Lemma extract_features_rejects_none :
  ¬ ∃ B f, extract_features B {["amount" := PyNone]} = Ok f.
Proof. intros (B & f & H). vm_compute in H. discriminate. Qed.

(** C6, amended: [extract_features] returns a FeatureSet whenever the
    amount is missing or is a bool, a float or an int within the range of
    [float()]; each of hour, tx_count_30d, account_age_months and
    kyc_status is missing or is a bool, an int or a finite float; and the
    country and the type are each missing or a value that [str()] converts.
    In that FeatureSet every missing field has its default: amount 0, hour
    12, country "", type "", 0 transactions, account age 12, KYC verified,
    previously_flagged and is_pep false. A value that is present is not
    replaced by a default: with [None] for the amount, [extract_features]
    raises [TypeError]. *)
Theorem extract_features_defaults :
  (∀ B data,
     convertible_fields data →
     ∃ f, extract_features B data = Ok f ∧
          (data !! "amount" = None → amount f = 0%float) ∧
          (data !! "hour" = None → hour f = 12) ∧
          (data !! "country" = None → country f = "") ∧
          (data !! "type" = None → tx_type f = "") ∧
          (data !! "tx_count_30d" = None → tx_count f = 0) ∧
          (data !! "account_age_months" = None → account_age f = 12) ∧
          (data !! "kyc_status" = None → kyc_status f = 1 ∧ kyc_incomplete f = false) ∧
          (data !! "previously_flagged" = None → prev_flagged f = false) ∧
          (data !! "is_pep" = None → is_pep f = false)) ∧
  (∀ B data,
     data !! "amount" = Some PyNone → extract_features B data = Raise TypeError).
Proof.
  split.
  - intros B data [[Ha Hi] _]. rewrite !Forall_cons in Hi.
    destruct Hi as (Hh & Hc & Hg & Hk & _).
    destruct (py_float_ok B _ Ha) as [a Ha'].
    destruct (py_int_ok B _ (int_convertible_default _ _ _ 12 Hh)) as [h Hh'].
    destruct (py_int_ok B _ Hc) as [c Hc'].
    destruct (py_int_ok B _ (int_convertible_default _ _ _ 12 Hg)) as [g Hg'].
    destruct (py_int_ok B _ (int_convertible_default _ _ _ 1 Hk)) as [k Hk'].
    destruct (round_amount_test_ok a) as [r Hr].
    eexists. split.
    { unfold extract_features. rewrite Ha', Hh', Hc', Hg', Hk'.
      cbn [mbind result_bind]. rewrite Hr. reflexivity. }
    cbn [amount hour country tx_type tx_count account_age kyc_status kyc_incomplete
         prev_flagged is_pep].
    repeat match goal with |- _ ∧ _ => split end;
      intros Hm; rewrite dict_get_missing in * by exact Hm;
      cbn in *; simplify_eq; try split; reflexivity.
  - intros B data Hn. unfold extract_features.
    replace (dict_get data "amount" (PyInt 0)) with PyNone
      by (unfold dict_get; by rewrite Hn).
    reflexivity.
Qed.

Lemma extract_features_defaults_witness :
  ∃ f, extract_features no_text_numbers
         (list_to_map [("country", PyStr "IR"); ("amount", PyInt 9800);
                       ("hour", PyFloat 3.5); ("kyc_status", PyBool false)]) = Ok f ∧
       amount f = 9800%float ∧ country f = "ir" ∧ hour f = 3 ∧ kyc_status f = 0 ∧
       tx_type f = "" ∧ tx_count f = 0 ∧ account_age f = 12 ∧
       prev_flagged f = false ∧ is_pep f = false.
Proof.
  destruct (proj1 extract_features_defaults no_text_numbers
              (list_to_map [("country", PyStr "IR"); ("amount", PyInt 9800);
                            ("hour", PyFloat 3.5); ("kyc_status", PyBool false)]))
    as (f & Hf & _ & _ & _ & Ht & Hc & Hg & _ & Hp & Hpe).
  { split; [split; [reflexivity | repeat constructor] | split; reflexivity]. }
  exists f. split; [exact Hf |].
  assert (Hv : amount f = 9800%float ∧ country f = "ir" ∧ hour f = 3 ∧ kyc_status f = 0).
  { vm_compute in Hf. injection Hf as <-. repeat split. }
  destruct Hv as (? & ? & ? & ?).
  repeat (split; [assumption |]).
  split; [by apply Ht |]. split; [by apply Hc |]. split; [by apply Hg |].
  split; [by apply Hp | by apply Hpe].
Defined.

(** ** Tree 3 on crypto to a sanctioned country *)

Lemma sanctioned_subseteq_high_risk : SANCTIONED_COUNTRIES ⊆ HIGH_RISK_COUNTRIES.
Proof. apply (bool_decide_unpack _). vm_compute. exact I. Qed.

(** C7: in a FeatureSet extracted from a transaction of type crypto to a
    sanctioned country, the country is also high-risk, so the +55 and the
    +60 of Tree 3 both apply and the tree returns 100, the clamp of 115 (or
    of 135 at night). *)
Theorem crypto_sanctioned_combo B data f :
  extract_features B data = Ok f →
  tx_type f = "crypto" →
  country f ∈ SANCTIONED_COUNTRIES →
  SANCTIONED_COUNTRIES ⊆ HIGH_RISK_COUNTRIES ∧
  is_high_risk f = true ∧
  is_sanctioned f = true ∧
  tree_type_country_combo f = NInt 100.
Proof.
  intros Hf Ht Hc.
  apply extract_features_inv in Hf
    as (_ & _ & _ & _ & _ & _ & _ & _ & _ & Hs & Hh & _).
  pose proof sanctioned_subseteq_high_risk as Hsub.
  rewrite bool_decide_eq_true_2 in Hs by exact Hc.
  rewrite bool_decide_eq_true_2 in Hh by (apply Hsub, Hc).
  repeat (split; [assumption |]).
  unfold tree_type_country_combo. rewrite Ht, Hs, Hh.
  destruct (near_threshold f), (float_gt_int (amount f) 100000), (is_night f);
    vm_compute; reflexivity.
Qed.

Lemma crypto_sanctioned_combo_witness :
  ∃ f, extract_features no_text_numbers
         (list_to_map [("amount", PyInt 500); ("type", PyStr "Crypto");
                       ("country", PyStr "IR")]) = Ok f ∧
       tree_type_country_combo f = NInt 100.
Proof.
  eexists. split; [vm_compute; reflexivity |].
  refine (proj2 (proj2 (proj2
    (crypto_sanctioned_combo no_text_numbers
       (list_to_map [("amount", PyInt 500); ("type", PyStr "Crypto");
                     ("country", PyStr "IR")]) _ _ _ _)))).
  - vm_compute. reflexivity.
  - reflexivity.
  - apply (bool_decide_unpack _). vm_compute. exact I.
Defined.

(** ** KYC *)

Lemma py_in_str_unfold needle hay :
  py_in_str needle hay =
  String.prefix needle hay ||
  match hay with
  | EmptyString => false
  | String _ hay' => py_in_str needle hay'
  end.
Proof. by destruct hay. Qed.

Lemma append_cons c s t : String c s ++ t = String c (s ++ t).
Proof. reflexivity. Qed.

Lemma prefix_iff needle hay :
  String.prefix needle hay = true ↔ ∃ post, hay = needle ++ post.
Proof.
  revert hay. induction needle as [| c needle IH]; intros hay.
  - split; [intros _; by exists hay | intros _; by destruct hay].
  - destruct hay as [| d hay]; cbn [String.prefix String.append].
    + split; [discriminate | intros [post [=]]].
    + destruct (Ascii.ascii_dec c d) as [-> | Hne].
      * rewrite IH. split; intros [post H]; exists post; rewrite append_cons in *; congruence.
      * split; [discriminate |].
        intros [post H]. rewrite append_cons in H. congruence.
Qed.

(** [py_in_str] is the substring test. *)
Lemma py_in_str_iff needle hay :
  py_in_str needle hay = true ↔ ∃ pre post, hay = pre ++ needle ++ post.
Proof.
  induction hay as [| d hay IH]; rewrite py_in_str_unfold, orb_true_iff, prefix_iff.
  - split.
    + intros [[post ->] | [=]]. by exists "", post.
    + intros ([| ? ?] & post & H); [left; by exists post | discriminate].
  - rewrite IH. split.
    + intros [[post ->] | (pre & post & ->)].
      * by exists "", post.
      * by exists (String d pre), post.
    + intros ([| c pre] & post & H).
      * left. by exists post.
      * right. injection H as -> ->. by exists pre, post.
Qed.

Lemma dict_get_present data key d v : data !! key = Some v → dict_get data key d = v.
Proof. unfold dict_get. by intros ->. Qed.

(** What a sanctions match entails in [analyze_kyc]. *)
Lemma analyze_kyc_sanctioned B E data :
  KYC.sanctions_match (analyze_kyc B E data) = true →
  90 ≤ KYC.risk_score (analyze_kyc B E data) ∧
  KYC.risk_level (analyze_kyc B E data) = "CRITICAL" ∧
  KYC.cdd_level (analyze_kyc B E data) = "EDD" ∧
  KYC.str_required (analyze_kyc B E data) = true.
Proof.
  unfold analyze_kyc.
  cbn [KYC.sanctions_match KYC.risk_score KYC.risk_level KYC.cdd_level KYC.str_required].
  cbv zeta. intros ->.
  destruct (existsb _ _), (bool_decide _);
    (split; [vm_compute; discriminate |]); repeat split.
Qed.

(** C8: a name that contains "putin vladimir", whatever its case, gives a
    sanctions match, a risk score of at least 90, tier CRITICAL, CDD level
    EDD and a required STR, whatever the other fields; and [str_required]
    always equals [sanctions_match]. *)
Theorem kyc_putin_vladimir :
  (∀ B E data nm pre post,
     data !! "name" = Some (PyStr nm) →
     lower nm = pre ++ "putin vladimir" ++ post →
     KYC.sanctions_match (analyze_kyc B E data) = true ∧
     90 ≤ KYC.risk_score (analyze_kyc B E data) ∧
     KYC.risk_level (analyze_kyc B E data) = "CRITICAL" ∧
     KYC.cdd_level (analyze_kyc B E data) = "EDD" ∧
     KYC.str_required (analyze_kyc B E data) = true) ∧
  (∀ B E data,
     KYC.str_required (analyze_kyc B E data) =
     KYC.sanctions_match (analyze_kyc B E data)).
Proof.
  split; [| reflexivity].
  intros B E data nm pre post Hn Hl.
  assert (Hm : KYC.sanctions_match (analyze_kyc B E data) = true).
  { unfold analyze_kyc. cbn [KYC.sanctions_match]. cbv zeta.
    rewrite (dict_get_present _ _ _ _ Hn). cbn [py_str]. rewrite Hl.
    unfold SANCTIONS_LIST. cbn [existsb].
    replace (py_in_str "putin vladimir" (pre ++ "putin vladimir" ++ post)) with true
      by (symmetry; apply py_in_str_iff; eauto).
    by rewrite orb_true_r. }
  split; [exact Hm | by apply analyze_kyc_sanctioned].
Qed.

Lemma kyc_putin_vladimir_witness :
  KYC.risk_level
    (analyze_kyc no_text_numbers sample_env
       (list_to_map [("name", PyStr "Mr. PUTIN Vladimir V."); ("nationality", PyStr "fr")]))
  = "CRITICAL".
Proof.
  refine (proj1 (proj2 (proj2
    (proj1 kyc_putin_vladimir no_text_numbers sample_env
       (list_to_map [("name", PyStr "Mr. PUTIN Vladimir V."); ("nationality", PyStr "fr")])
       "Mr. PUTIN Vladimir V." "mr. " " v." _ _)))).
  - vm_compute. reflexivity.
  - vm_compute. reflexivity.
Defined.

(** C10: an STR is only ever required together with CDD level EDD: the
    sanctions match that requires it puts the score at 90 or more, hence
    the tier at CRITICAL. *)
Theorem str_required_implies_edd B E data :
  KYC.str_required (analyze_kyc B E data) = true →
  KYC.risk_level (analyze_kyc B E data) = "CRITICAL" ∧
  KYC.cdd_level (analyze_kyc B E data) = "EDD".
Proof.
  intros H.
  destruct (analyze_kyc_sanctioned B E data) as (_ & Ht & Hc & _); [exact H | by split].
Qed.

Lemma str_required_implies_edd_witness :
  KYC.cdd_level
    (analyze_kyc no_text_numbers sample_env {["name" := PyStr "Ali KHAMENEI"]})
  = "EDD".
Proof.
  refine (proj2 (str_required_implies_edd no_text_numbers sample_env
                   {["name" := PyStr "Ali KHAMENEI"]} _)).
  vm_compute. reflexivity.
Defined.

(** ** Determinism *)

(** C9: two runs of [analyze_transaction] on the same input, under any two
    clocks and random draws, agree on the score, the tier, the per-tree
    scores, the flags, the flag count and the recommendation (and fail
    alike when they fail); only the timestamp and a generated transaction
    id depend on the run. *)
Theorem analysis_is_deterministic B E1 E2 data :
  assessment <$> analyze_transaction B E1 data =
  assessment <$> analyze_transaction B E2 data.
Proof.
  unfold analyze_transaction.
  destruct (extract_features B data) as [f |]; [| reflexivity].
  cbn [mbind result_bind].
  destruct (random_forest_predict f) as [p |]; reflexivity.
Qed.

(** * Further properties *)

(** ** Score bounds *)

Lemma round_half_even_nonneg num den :
  0 ≤ num → 0 < den → 0 ≤ round_half_even num den.
Proof.
  intros Hn Hd. unfold round_half_even.
  pose proof (Z.div_pos num den Hn Hd).
  destruct (2 * (num mod den) ?= den); [destruct (Z.even _) | |]; lia.
Qed.

Lemma round_half_even_le num den k :
  0 < den → num ≤ k * den → round_half_even num den ≤ k.
Proof.
  intros Hd Hk. unfold round_half_even.
  assert (Hdm : num = den * (num / den) + num mod den) by (apply Z.div_mod; lia).
  pose proof (Z.mod_pos_bound num den Hd) as Hm.
  generalize dependent (num mod den). generalize dependent (num / den).
  intros q r Hdm Hm.
  assert (Hq : q ≤ k) by nia.
  assert (Hq' : 0 < r → q + 1 ≤ k) by nia.
  destruct (Z.compare_spec (2 * r) den); [destruct (Z.even _) | |]; lia.
Qed.

(** A float that is finite and not negative rounds to a natural number. *)
Lemma round_float_nonneg x :
  finite_float x = true → get_sign x = false → ∃ n, round_float x = Ok n ∧ 0 ≤ n.
Proof.
  unfold finite_float, round_float, Prim2SF. intros H Hs.
  apply andb_prop in H as [Hn Hi].
  apply negb_true_iff in Hn, Hi. rewrite Hn, Hi, Hs.
  destruct (is_zero x); [eexists; split; [reflexivity | lia] |].
  repeat match goal with
         | |- context [let (_, _) := ?t in _] => destruct t
         end.
  match goal with |- context [shr_m ?s] => destruct (shr_m s) as [| m | m] end;
    try (eexists; split; [reflexivity | lia]).
  eexists. split; [reflexivity |].
  destruct (Z.leb_spec 0 z0).
  - pose proof (Z.pow_nonneg 2 z0). lia.
  - apply round_half_even_nonneg; [lia | apply Z.pow_pos_nonneg; lia].
Qed.

(** What [min(x, 100)] leaves as a float rounds to at most 100. *)
Lemma round_float_le_100 x n :
  float_gt_int x 100 = false → round_float x = Ok n → n ≤ 100.
Proof.
  unfold float_gt_int, float_cmp_int, round_float.
  destruct (Prim2SF x) as [s | s | | s m e]; try discriminate.
  - intros _ [= <-]. lia.
  - intros Hc [= <-].
    destruct s.
    + assert (0 ≤ if 0 <=? e then Z.pos m * 2 ^ e
                  else round_half_even (Z.pos m) (2 ^ (- e))); [| lia].
      destruct (Z.leb_spec 0 e).
      * pose proof (Z.pow_nonneg 2 e). lia.
      * apply round_half_even_nonneg; [lia | apply Z.pow_pos_nonneg; lia].
    + destruct (Z.leb_spec 0 e).
      * destruct (Z.compare_spec (Z.pos m * 2 ^ e) 100); try discriminate; lia.
      * apply round_half_even_le; [apply Z.pow_pos_nonneg; lia |].
        destruct (Z.compare_spec (Z.pos m) (100 * 2 ^ (- e))); try discriminate; lia.
Qed.

Lemma weighted_sum_nonneg_on_values :
  forallb (fun a5 => forallb (fun a4 => forallb (fun a3 => forallb (fun a2 =>
    forallb (fun a1 =>
      let w := py_sum [a1; a2; a3; a4; a5] in finite_float w && negb (get_sign w))
      (map (fun t => num_mul t 0.25%float) tree_sanctions_amount_values))
      (map (fun t => num_mul t 0.20%float) tree_account_behavior_values))
      (map (fun t => num_mul t 0.25%float) tree_type_country_combo_values))
      (map (fun t => num_mul t 0.15%float) tree_kyc_velocity_values))
      (map (fun t => num_mul t 0.15%float) tree_anomaly_isolation_values)
  = true.
Proof. vm_compute. reflexivity. Qed.

Lemma nonneg_weighted_score f :
  let w := py_sum (map (fun '(_, (score, weight)) => num_mul score weight) (forest f)) in
  finite_float w = true ∧ get_sign w = false.
Proof.
  pose proof weighted_sum_nonneg_on_values as H.
  repeat setoid_rewrite forallb_forall in H.
  cbn [forest map]. cbv zeta.
  rewrite <- negb_true_iff. apply andb_prop. apply H.
  - apply (in_map (fun t => num_mul t _)), tree_anomaly_isolation_in.
  - apply (in_map (fun t => num_mul t _)), tree_kyc_velocity_in.
  - apply (in_map (fun t => num_mul t _)), tree_type_country_combo_in.
  - apply (in_map (fun t => num_mul t _)), tree_account_behavior_in.
  - apply (in_map (fun t => num_mul t _)), tree_sanctions_amount_in.
Qed.

Lemma final_score_in_range x :
  finite_float x = true → get_sign x = false →
  ∃ n, py_round (py_min (NFloat x) 100) = Ok n ∧ 0 ≤ n ≤ 100.
Proof.
  intros Hf Hs. unfold py_min.
  destruct (float_gt_int x 100) eqn:Hgt; cbn [py_round].
  - exists 100. split; [reflexivity | lia].
  - destruct (round_float_nonneg x Hf Hs) as (n & Hn & H0).
    exists n. split; [exact Hn |]. split; [exact H0 |].
    by apply (round_float_le_100 x).
Qed.

Lemma tree_values_round_in_range :
  forallb (fun t => match py_round t with
                    | Ok n => score_in_range n
                    | Raise _ => false
                    end) tree_values = true.
Proof. vm_compute. reflexivity. Qed.

Lemma tree_round_in_range t :
  In t tree_values → ∃ n, py_round t = Ok n ∧ 0 ≤ n ≤ 100.
Proof.
  intros H. pose proof tree_values_round_in_range as Hall.
  rewrite forallb_forall in Hall. specialize (Hall t H).
  destruct (py_round t) as [n |]; [| discriminate].
  exists n. split; [reflexivity |].
  unfold score_in_range in Hall. apply andb_prop in Hall as [?%Z.leb_le ?%Z.leb_le]. lia.
Qed.

(** X1: for every FeatureSet the ensemble returns a prediction; its final
    score is an integer between 0 and 100, and its per-tree breakdown lists
    the five trees in order, each with a score between 0 and 100. *)
Theorem prediction_scores_in_range f :
  ∃ p, random_forest_predict f = Ok p ∧
       0 ≤ Prediction.score p ≤ 100 ∧
       (Prediction.trees p).*1 = tree_names ∧
       Forall (fun n => 0 ≤ n ≤ 100) (Prediction.trees p).*2.
Proof.
  destruct (nonneg_weighted_score f) as [Hfin Hsign].
  destruct (final_score_in_range _ Hfin Hsign) as (s & Hs & Hsr).
  destruct (tree_round_in_range (tree_sanctions_amount f)) as (n1 & H1 & R1).
  { unfold tree_values. rewrite !in_app_iff. auto using tree_sanctions_amount_in. }
  destruct (tree_round_in_range (tree_account_behavior f)) as (n2 & H2 & R2).
  { unfold tree_values. rewrite !in_app_iff. auto using tree_account_behavior_in. }
  destruct (tree_round_in_range (tree_type_country_combo f)) as (n3 & H3 & R3).
  { unfold tree_values. rewrite !in_app_iff. auto using tree_type_country_combo_in. }
  destruct (tree_round_in_range (tree_kyc_velocity f)) as (n4 & H4 & R4).
  { unfold tree_values. rewrite !in_app_iff. auto using tree_kyc_velocity_in. }
  destruct (tree_round_in_range (tree_anomaly_isolation f)) as (n5 & H5 & R5).
  { unfold tree_values. rewrite !in_app_iff. auto 10 using tree_anomaly_isolation_in. }
  unfold random_forest_predict. cbv zeta. rewrite Hs.
  cbn [mbind result_bind forest mapM]. rewrite H1, H2, H3, H4, H5.
  cbn [mbind result_bind mret result_ret]. eexists. split; [reflexivity |].
  cbn [Prediction.score Prediction.trees fmap list_fmap fst snd].
  split; [exact Hsr |]. split; [reflexivity |].
  repeat constructor; lia.
Qed.

(** ** Recommendation *)

Lemma get_recommendation_tiers flags :
  get_recommendation "CRITICAL" flags = actions !!! "CRITICAL" ∧
  get_recommendation "HIGH" flags = actions !!! "HIGH" ∧
  get_recommendation "MEDIUM" flags = actions !!! "MEDIUM" ∧
  get_recommendation "LOW" flags = actions !!! "LOW".
Proof. repeat split; vm_compute; reflexivity. Qed.

(** X2: a tier that is not one of the four keys of the table gets the LOW
    recommendation: the lookup never fails. *)
Theorem get_recommendation_fallback tier flags :
  tier ∉ ["CRITICAL"; "HIGH"; "MEDIUM"; "LOW"] →
  get_recommendation tier flags = actions !!! "LOW" ∧
  Recommendation.action (get_recommendation tier flags) = "PROCEED — STANDARD MONITORING" ∧
  Recommendation.str_required (get_recommendation tier flags) = false ∧
  Recommendation.edd_required (get_recommendation tier flags) = false.
Proof.
  intros Hn. unfold get_recommendation.
  assert (Hl : actions !! tier = None).
  { unfold actions. apply not_elem_of_list_to_map_1. exact Hn. }
  rewrite Hl. repeat split.
Qed.

Lemma get_recommendation_fallback_witness :
  Recommendation.str_required (get_recommendation "SEVERE" []) = false.
Proof.
  refine (proj1 (proj2 (proj2 (get_recommendation_fallback "SEVERE" [] _)))).
  rewrite !elem_of_cons, elem_of_nil. intros [H | [H | [H | [H | []]]]]; discriminate.
Defined.

(** X3: in every analysis result the recommendation follows the final
    score: an STR is required exactly from 80 on, enhanced due diligence
    exactly from 60 on, and the action is the one of the tier. *)
Theorem recommendation_follows_score B E data r :
  analyze_transaction B E data = Ok r →
  Analysis.recommendation r = actions !!! Analysis.risk_level r ∧
  (Recommendation.str_required (Analysis.recommendation r) = true ↔
   80 ≤ Analysis.score r) ∧
  (Recommendation.edd_required (Analysis.recommendation r) = true ↔
   60 ≤ Analysis.score r) ∧
  (Recommendation.action (Analysis.recommendation r) = "PROCEED — STANDARD MONITORING" ↔
   Analysis.score r < 35).
Proof.
  intros (f & p & _ & Hp & Hs & Ht & _ & _ & _ & Hr)%analyze_transaction_inv.
  destruct (random_forest_predict_total f) as (p' & Hp' & Htier).
  rewrite Hp in Hp'. injection Hp' as <-.
  rewrite Hr, Ht, Hs, Htier.
  destruct (get_recommendation_tiers (detect_flags f)) as (Hc & Hh & Hm & Hl).
  destruct (risk_level_of_score_cases (Prediction.score p))
    as [[H ->] | [[H ->] | [[H ->] | [H ->]]]].
  - rewrite Hc. split; [reflexivity |].
    cbn. repeat split; intros; try lia; try discriminate; try reflexivity.
  - rewrite Hh. split; [reflexivity |].
    cbn. repeat split; intros; try lia; try discriminate; try reflexivity.
  - rewrite Hm. split; [reflexivity |].
    cbn. repeat split; intros; try lia; try discriminate; try reflexivity.
  - rewrite Hl. split; [reflexivity |].
    cbn. repeat split; intros; try lia; try discriminate; try reflexivity.
Qed.

Lemma recommendation_follows_score_witness :
  ∃ r, analyze_transaction no_text_numbers sample_env scenario_A = Ok r ∧
       Recommendation.edd_required (Analysis.recommendation r) = true.
Proof.
  assert (H : ∃ r, analyze_transaction no_text_numbers sample_env scenario_A = Ok r ∧
                   60 ≤ Analysis.score r).
  { eexists. split; [vm_compute; reflexivity |]. vm_compute. discriminate. }
  destruct H as (r & Hr & Hs). exists r. split; [exact Hr |].
  apply (proj1 (proj2 (proj2 (recommendation_follows_score _ _ _ _ Hr)))). exact Hs.
Defined.

(** ** Thresholds *)

(** The exact comparisons of a float with two integers agree with the
    order of the integers. *)
Lemma float_gt_ge_mono x m n :
  m ≤ n → float_gt_int x n = true → float_ge_int x m = true.
Proof.
  unfold float_gt_int, float_ge_int, float_cmp_int. intros Hmn.
  destruct (Prim2SF x) as [s | s | | s v e]; try discriminate.
  - destruct (Z.compare_spec 0 n); try discriminate.
    destruct (Z.compare_spec 0 m); try reflexivity; lia.
  - destruct s; [discriminate | reflexivity].
  - cbv zeta. set (w := if s then Z.neg v else Z.pos v).
    destruct (Z.leb_spec 0 e).
    + destruct (Z.compare_spec (w * 2 ^ e) n); try discriminate.
      destruct (Z.compare_spec (w * 2 ^ e) m); try reflexivity; lia.
    + assert (0 < 2 ^ (- e)) by (apply Z.pow_pos_nonneg; lia).
      destruct (Z.compare_spec w (n * 2 ^ (- e))); try discriminate.
      destruct (Z.compare_spec w (m * 2 ^ (- e))); try reflexivity; nia.
Qed.

Lemma float_ge_lt_exclusive x n : float_ge_int x n && float_lt_int x n = false.
Proof.
  unfold float_ge_int, float_lt_int.
  by destruct (float_cmp_int x n) as [[] |].
Qed.

(** X4: in an extracted FeatureSet an amount is never both at or above the
    reporting threshold and near it, a sanctioned country is always
    high-risk, and the flags "threshold_breach" and "structuring_suspected"
    never occur together. *)
Theorem threshold_flags_exclusive B data f :
  extract_features B data = Ok f →
  above_threshold f && near_threshold f = false ∧
  (is_sanctioned f = true → is_high_risk f = true) ∧
  ¬ ("threshold_breach" ∈ codes (detect_flags f) ∧
     "structuring_suspected" ∈ codes (detect_flags f)).
Proof.
  intros Hf.
  apply extract_features_inv in Hf
    as (_ & _ & _ & _ & _ & _ & _ & _ & _ & Hs & Hh & _ & Ha & Hn & _).
  assert (Hex : above_threshold f && near_threshold f = false).
  { rewrite Ha, Hn.
    destruct (float_ge_int (amount f) 10000) eqn:Hge; [| reflexivity].
    pose proof (float_ge_lt_exclusive (amount f) 10000) as Hx. rewrite Hge in Hx.
    cbn in Hx. rewrite Hx. by rewrite andb_false_r. }
  split; [exact Hex |]. split.
  - rewrite Hs, Hh. intros Hc%bool_decide_eq_true.
    apply bool_decide_eq_true. by apply sanctioned_subseteq_high_risk.
  - rewrite !code_in_detect_flags by discriminate.
    intros [(x & Hx & Hcx) (y & Hy & Hcy)].
    rule_cases Hx. rule_cases Hy. rewrite <- Hx, <- Hy in Hex. discriminate.
Qed.

Lemma threshold_flags_exclusive_witness :
  ∃ f, extract_features no_text_numbers scenario_B = Ok f ∧
       above_threshold f && near_threshold f = false.
Proof.
  eexists. split; [vm_compute; reflexivity |].
  refine (proj1 (threshold_flags_exclusive no_text_numbers scenario_B _ _)).
  vm_compute. reflexivity.
Defined.

(** ** Clean transactions *)

Lemma clean_prediction f p :
  random_forest_predict f = Ok p →
  is_sanctioned f = false → is_high_risk f = false → is_night f = false →
  above_threshold f = false → near_threshold f = false →
  is_high_velocity f = false → kyc_incomplete f = false →
  prev_flagged f = false → is_pep f = false →
  float_gt_int (amount f) 10000 = false → float_gt_int (amount f) 25000 = false →
  float_gt_int (amount f) 50000 = false → float_gt_int (amount f) 100000 = false →
  Prediction.score p ≤ 10 ∧ Prediction.risk_level p = "LOW".
Proof.
  unfold random_forest_predict, forest, tree_sanctions_amount, tree_account_behavior,
    tree_type_country_combo, tree_kyc_velocity, tree_anomaly_isolation.
  intros Hp Hs Hh Hn Ha Hnr Hv Hk Hpf Hpep H10 H25 H50 H100.
  rewrite Hs, Hh, Hn, Ha, Hnr, Hv, Hk, Hpf, Hpep, H10, H25, H50, H100 in Hp.
  rewrite !andb_false_r in Hp. cbn [andb] in Hp.
  destruct (is_new_account f), (is_round_amount f);
    vm_compute in Hp; injection Hp as <-;
    (split; [vm_compute; discriminate | reflexivity]).
Qed.

(** X5: an analysis whose flag list is the sentinel "clean" has a final
    score of at most 10, the tier LOW and the recommendation to proceed:
    a tier of MEDIUM or more always comes with at least one red flag. *)
Theorem clean_transaction_is_low B E data r :
  analyze_transaction B E data = Ok r →
  Analysis.flags r = [clean_flag] →
  Analysis.score r ≤ 10 ∧
  Analysis.risk_level r = "LOW" ∧
  Analysis.flag_count r = 0 ∧
  Recommendation.action (Analysis.recommendation r) = "PROCEED — STANDARD MONITORING".
Proof.
  intros Hr Hclean.
  pose proof Hr as (f & p & Hf & Hp & Hs & Ht & _ & Hfl & Hct & Hrec)%analyze_transaction_inv.
  rewrite Hfl in Hclean.
  pose proof Hclean as Hnone%detect_flags_clean_iff.
  rewrite red_flag_predicates_eq, !Forall_cons in Hnone.
  destruct Hnone as (Hsa & Hhr & Hn & Ha & Hnr & _ & Hv & Hk & Hpf & _ & Hpep & _).
  rewrite Hsa, andb_true_r in Hhr.
  pose proof Hf as (_ & _ & _ & _ & _ & _ & _ & _ & _ & _ & _ & _ & Hab & _)%extract_features_inv.
  assert (Hgt : ∀ n, 10000 ≤ n → float_gt_int (amount f) n = false).
  { intros n Hle. destruct (float_gt_int (amount f) n) eqn:Hg; [| reflexivity].
    apply (float_gt_ge_mono _ 10000) in Hg; [| exact Hle]. congruence. }
  destruct (clean_prediction f p Hp) as [Hscore Htier]; try assumption;
    try (apply Hgt; lia).
  rewrite Hs, Ht, Hct, Hrec, Htier, Hclean.
  split; [exact Hscore |]. split; [reflexivity |].
  split; vm_compute; reflexivity.
Qed.

Lemma clean_transaction_is_low_witness :
  ∃ r, analyze_transaction no_text_numbers sample_env ∅ = Ok r ∧
       Analysis.risk_level r = "LOW".
Proof.
  assert (H : ∃ r, analyze_transaction no_text_numbers sample_env ∅ = Ok r ∧
                   Analysis.flags r = [clean_flag]).
  { eexists. split; vm_compute; reflexivity. }
  destruct H as (r & Hr & Hf). exists r. split; [exact Hr |].
  exact (proj1 (proj2 (clean_transaction_is_low _ _ _ _ Hr Hf))).
Defined.

(** ** Failures *)

(** X6: when the country and the type are each missing or a value that
    [str()] converts, [extract_features] returns a FeatureSet exactly when
    [float()] accepts the amount and [int()] accepts the hour, the
    transaction count, the account age and the KYC status; the two booleans
    are never rejected and the modulo test on the amount never fails. *)
Theorem extract_features_ok_iff B data :
  str_convertible (dict_get data "country" (PyStr "")) = true →
  str_convertible (dict_get data "type" (PyStr "")) = true →
  is_ok (extract_features B data) =
  is_ok (py_float B (dict_get data "amount" (PyInt 0))) &&
  is_ok (py_int B (dict_get data "hour" (PyInt 12))) &&
  is_ok (py_int B (dict_get data "tx_count_30d" (PyInt 0))) &&
  is_ok (py_int B (dict_get data "account_age_months" (PyInt 12))) &&
  is_ok (py_int B (dict_get data "kyc_status" (PyInt 1))).
Proof.
  intros _ _. unfold extract_features.
  destruct (py_float B _) as [a |]; [| reflexivity]. cbn [mbind result_bind is_ok andb].
  destruct (py_int B (dict_get data "hour" _)) as [h |]; [| reflexivity].
  cbn [mbind result_bind is_ok andb].
  destruct (py_int B (dict_get data "tx_count_30d" _)) as [c |]; [| reflexivity].
  cbn [mbind result_bind is_ok andb].
  destruct (py_int B (dict_get data "account_age_months" _)) as [g |]; [| reflexivity].
  cbn [mbind result_bind is_ok andb].
  destruct (py_int B (dict_get data "kyc_status" _)) as [k |]; [| reflexivity].
  cbn [mbind result_bind is_ok andb].
  destruct (round_amount_test_ok a) as [r ->]. reflexivity.
Qed.

Lemma extract_features_ok_iff_witness :
  is_ok (extract_features no_text_numbers
           (list_to_map [("amount", PyFloat 250); ("country", PyStr "EG");
                         ("hour", PyFloat nan)])) = false.
Proof.
  rewrite (extract_features_ok_iff no_text_numbers
             (list_to_map [("amount", PyFloat 250); ("country", PyStr "EG");
                           ("hour", PyFloat nan)]));
    reflexivity.
Defined.

(** X7: [analyze_transaction] raises exactly when [extract_features]
    raises, and then the same exception: nothing after the extraction can
    fail. *)
Theorem analyze_raises_iff_extract_raises B E data e :
  analyze_transaction B E data = Raise e ↔ extract_features B data = Raise e.
Proof.
  unfold analyze_transaction.
  destruct (extract_features B data) as [f | e']; cbn [mbind result_bind];
    [| split; intros [= ->]; reflexivity].
  destruct (random_forest_predict_total f) as (p & -> & _).
  cbn [mbind result_bind mret result_ret]. split; discriminate.
Qed.

(** ** What the analysis reads *)

Lemma dict_get_insert_ne (data : gmap string pyval) key key' v d :
  key ≠ key' → dict_get (<[key := v]> data) key' d = dict_get data key' d.
Proof. intros H. unfold dict_get. by rewrite lookup_insert_ne. Qed.

Lemma dict_get_insert_eq (data : gmap string pyval) key v d :
  dict_get (<[key := v]> data) key d = v.
Proof. unfold dict_get. by rewrite lookup_insert_eq. Qed.

Lemma extract_features_ext B data data' :
  (∀ key d, key ∈ feature_keys → dict_get data key d = dict_get data' key d) →
  extract_features B data = extract_features B data'.
Proof.
  intros H. unfold extract_features.
  rewrite !(H "amount"), !(H "country"), !(H "type"), !(H "hour"),
    !(H "tx_count_30d"), !(H "account_age_months"), !(H "kyc_status"),
    !(H "previously_flagged"), !(H "is_pep")
    by (unfold feature_keys; elem_of_explicit).
  reflexivity.
Qed.

Lemma assessment_ext B E E' data data' :
  extract_features B data = extract_features B data' →
  assessment <$> analyze_transaction B E data =
  assessment <$> analyze_transaction B E' data'.
Proof.
  intros H. unfold analyze_transaction. rewrite H.
  destruct (extract_features B data') as [f |]; [| reflexivity].
  cbn [mbind result_bind].
  destruct (random_forest_predict f) as [p |]; reflexivity.
Qed.

(** X8: the assessment depends on nine keys of the dictionary only; any
    other key, such as the currency, the customer or the transaction id,
    can be set to any value without changing the score, the tier, the
    flags or the recommendation. *)
Theorem analysis_ignores_other_keys B E data key v :
  key ∉ feature_keys →
  extract_features B (<[key := v]> data) = extract_features B data ∧
  assessment <$> analyze_transaction B E (<[key := v]> data) =
  assessment <$> analyze_transaction B E data.
Proof.
  intros Hk.
  assert (H : extract_features B (<[key := v]> data) = extract_features B data).
  { apply extract_features_ext. intros key' d Hin.
    apply dict_get_insert_ne. intros ->. contradiction. }
  split; [exact H | by apply assessment_ext].
Qed.

Lemma analysis_ignores_other_keys_witness :
  assessment <$> analyze_transaction no_text_numbers sample_env
                   (<["currency" := PyStr "EUR"]> scenario_B) =
  assessment <$> analyze_transaction no_text_numbers sample_env scenario_B.
Proof.
  refine (proj2 (analysis_ignores_other_keys no_text_numbers sample_env scenario_B
                   "currency" (PyStr "EUR") _)).
  unfold feature_keys. rewrite !elem_of_cons, elem_of_nil.
  intros [H | [H | [H | [H | [H | [H | [H | [H | [H | []]]]]]]]]]; discriminate.
Defined.

(** X9: the country and the type are compared without regard to case: two
    spellings with the same lower-case form give the same assessment. *)
Theorem analysis_is_case_insensitive B E data key s s' :
  key ∈ ["country"; "type"] →
  lower s = lower s' →
  assessment <$> analyze_transaction B E (<[key := PyStr s]> data) =
  assessment <$> analyze_transaction B E (<[key := PyStr s']> data).
Proof.
  intros Hk Hl. apply assessment_ext. unfold extract_features.
  rewrite !elem_of_cons, elem_of_nil in Hk. destruct Hk as [-> | [-> | []]].
  - rewrite !dict_get_insert_eq. cbn [py_str]. rewrite Hl.
    by rewrite !(dict_get_insert_ne _ "country") by discriminate.
  - rewrite !dict_get_insert_eq. cbn [py_str]. rewrite Hl.
    by rewrite !(dict_get_insert_ne _ "type") by discriminate.
Qed.

Lemma analysis_is_case_insensitive_witness :
  assessment <$> analyze_transaction no_text_numbers sample_env
                   (<["country" := PyStr "IR"]> scenario_A) =
  assessment <$> analyze_transaction no_text_numbers sample_env
                   (<["country" := PyStr "ir"]> scenario_A).
Proof.
  refine (analysis_is_case_insensitive no_text_numbers sample_env scenario_A
            "country" "IR" "ir" _ _).
  - apply list_elem_of_here.
  - reflexivity.
Defined.

(** ** Requests of the transaction route *)

Lemma TransactionInput_dict_get tx :
  let data := TransactionInput.dict tx in
  dict_get data "amount" (PyInt 0) = PyFloat (TransactionInput.amount tx) ∧
  dict_get data "country" (PyStr "") = PyStr (TransactionInput.country tx) ∧
  dict_get data "type" (PyStr "") = PyStr (TransactionInput.type tx) ∧
  dict_get data "hour" (PyInt 12) = PyInt (TransactionInput.hour tx) ∧
  dict_get data "tx_count_30d" (PyInt 0) = PyInt (TransactionInput.tx_count_30d tx) ∧
  dict_get data "account_age_months" (PyInt 12) =
    PyInt (TransactionInput.account_age_months tx) ∧
  dict_get data "kyc_status" (PyInt 1) = PyInt (TransactionInput.kyc_status tx) ∧
  dict_get data "previously_flagged" (PyBool false) =
    PyBool (TransactionInput.previously_flagged tx) ∧
  dict_get data "is_pep" (PyBool false) = PyBool (TransactionInput.is_pep tx) ∧
  ∀ d, dict_get data "transaction_id" d = py_optional (TransactionInput.transaction_id tx).
Proof. cbv zeta. repeat split; try intros d; vm_compute; reflexivity. Qed.

(** X10: for every validated request of the transaction route the
    analysis returns a result and never raises; the country and the type
    of its features are the lower-case forms of the request's; and the
    transaction id of the result is the one of the request, [None] when the
    request has none: the generated "TXN-" id is never used, because
    [tx.dict()] always holds the key. *)
Theorem analyze_request_never_raises B E tx :
  ∃ f r,
    extract_features B (TransactionInput.dict tx) = Ok f ∧
    amount f = TransactionInput.amount tx ∧
    country f = lower (TransactionInput.country tx) ∧
    tx_type f = lower (TransactionInput.type tx) ∧
    analyze_transaction B E (TransactionInput.dict tx) = Ok r ∧
    Analysis.transaction_id r = py_optional (TransactionInput.transaction_id tx).
Proof.
  destruct (TransactionInput_dict_get tx)
    as (Ha & Hc & Ht & Hh & Hn & Hg & Hk & Hp & Hpe & Hid).
  destruct (round_amount_test_ok (TransactionInput.amount tx)) as [b Hb].
  assert (Hf : ∃ f, extract_features B (TransactionInput.dict tx) = Ok f ∧
                    amount f = TransactionInput.amount tx ∧
                    country f = lower (TransactionInput.country tx) ∧
                    tx_type f = lower (TransactionInput.type tx)).
  { unfold extract_features. rewrite Ha, Hc, Ht, Hh, Hn, Hg, Hk, Hp, Hpe.
    cbn [py_float py_int py_str py_bool mbind result_bind]. rewrite Hb.
    cbn [mbind result_bind mret result_ret]. eexists. repeat split. }
  destruct Hf as (f & Hf & Hfa & Hfc & Hft).
  destruct (random_forest_predict_total f) as (p & Hp' & _).
  exists f. eexists. repeat (split; [eassumption |]).
  unfold analyze_transaction. rewrite Hf. cbn [mbind result_bind]. rewrite Hp'.
  cbn [mbind result_bind mret result_ret]. split; [reflexivity |].
  cbn [Analysis.transaction_id]. apply Hid.
Qed.

(** ** KYC assessment *)

(** X11: the outcome of [analyze_kyc] as a function of its three tests.
    The tier is CRITICAL exactly on a sanctions match, HIGH exactly for a
    PEP without one, MEDIUM exactly for a high-risk nationality alone and
    LOW otherwise; due diligence is enhanced exactly on a sanctions match
    or for a PEP; the score is one of 0, 25, 40, 65, 90 and 100. *)
Theorem kyc_decision_table B E data :
  let r := analyze_kyc B E data in
  (KYC.risk_level r = "CRITICAL" ↔ KYC.sanctions_match r = true) ∧
  (KYC.risk_level r = "HIGH" ↔
   KYC.sanctions_match r = false ∧ KYC.is_pep r = true) ∧
  (KYC.risk_level r = "MEDIUM" ↔
   KYC.sanctions_match r = false ∧ KYC.is_pep r = false ∧
   KYC.high_risk_nationality r = true) ∧
  (KYC.risk_level r = "LOW" ↔
   KYC.sanctions_match r = false ∧ KYC.is_pep r = false ∧
   KYC.high_risk_nationality r = false) ∧
  (KYC.cdd_level r = "EDD" ↔ KYC.sanctions_match r = true ∨ KYC.is_pep r = true) ∧
  (KYC.cdd_level r = "Standard CDD" ↔
   KYC.sanctions_match r = false ∧ KYC.is_pep r = false) ∧
  KYC.risk_score r ∈ [0; 25; 40; 65; 90; 100].
Proof.
  cbv zeta. unfold analyze_kyc.
  cbn [KYC.risk_level KYC.sanctions_match KYC.is_pep KYC.high_risk_nationality
       KYC.cdd_level KYC.risk_score].
  cbv zeta.
  generalize (existsb
    (fun name_part => py_in_str name_part (lower (py_str B (dict_get data "name" (PyStr "")))))
    SANCTIONS_LIST).
  generalize (bool_decide
    (lower (py_str B (dict_get data "nationality" (PyStr ""))) ∈
     lower <$> elements HIGH_RISK_COUNTRIES)).
  generalize (existsb
    (fun kw => py_in_str kw (lower (py_str B (dict_get data "occupation" (PyStr "")))))
    ["minister"; "president"; "senator"; "official"; "politician";
     "ambassador"; "governor"; "parliament"; "general"; "director general"]).
  intros p n s.
  destruct s, p, n; vm_compute;
    (repeat split; try (intros; discriminate); try reflexivity;
     try (intros [? | ?]; discriminate); try (intros [? ?]; discriminate);
     try (intros (? & ? & ?); discriminate); auto);
    elem_of_explicit.
Qed.

(** X12: the sanctions test is a case-insensitive substring test of the
    name against the entries of SANCTIONS_LIST, and the PEP test one of the
    occupation against the ten keywords. *)
Theorem kyc_matches_are_substrings B E data :
  let r := analyze_kyc B E data in
  (KYC.sanctions_match r = true ↔
   ∃ part pre post,
     part ∈ SANCTIONS_LIST ∧
     lower (py_str B (dict_get data "name" (PyStr ""))) = pre ++ part ++ post) ∧
  (KYC.is_pep r = true ↔
   ∃ kw pre post,
     kw ∈ ["minister"; "president"; "senator"; "official"; "politician";
           "ambassador"; "governor"; "parliament"; "general"; "director general"] ∧
     lower (py_str B (dict_get data "occupation" (PyStr ""))) = pre ++ kw ++ post).
Proof.
  cbv zeta. unfold analyze_kyc. cbn [KYC.sanctions_match KYC.is_pep]. cbv zeta.
  split; rewrite existsb_exists; setoid_rewrite py_in_str_iff;
    setoid_rewrite <- list_elem_of_In.
  - split.
    + intros (part & Hin & pre & post & H). by exists part, pre, post.
    + intros (part & pre & post & Hin & H). exists part. split; [exact Hin | eauto].
  - split.
    + intros (kw & Hin & pre & post & H). by exists kw, pre, post.
    + intros (kw & pre & post & Hin & H). exists kw. split; [exact Hin | eauto].
Qed.

Lemma high_risk_codes_lower : lower <$> elements HIGH_RISK_COUNTRIES = elements HIGH_RISK_COUNTRIES.
Proof. vm_compute. reflexivity. Qed.

(** X13: the nationality test is membership of the lower-case nationality
    in HIGH_RISK_COUNTRIES: lower-casing the country codes, as the code
    does, changes none of them. *)
Theorem kyc_nationality_is_membership B E data :
  KYC.high_risk_nationality (analyze_kyc B E data) =
  bool_decide (lower (py_str B (dict_get data "nationality" (PyStr ""))) ∈
               HIGH_RISK_COUNTRIES).
Proof.
  unfold analyze_kyc. cbn [KYC.high_risk_nationality]. cbv zeta.
  rewrite high_risk_codes_lower. apply bool_decide_ext, elem_of_elements.
Qed.

(** X14: [analyze_kyc] reads the name, the nationality and the occupation
    only for its result: any other key of the profile can be set to any
    value without changing the result, provided the country, which is
    converted to text although not used, is a value that [str()] converts
    before and after the change. *)
Theorem kyc_ignores_other_keys B E data key v :
  key ∉ kyc_keys →
  str_convertible (dict_get data "country" (PyStr "")) = true →
  str_convertible (dict_get (<[key := v]> data) "country" (PyStr "")) = true →
  analyze_kyc B E (<[key := v]> data) = analyze_kyc B E data.
Proof.
  unfold kyc_keys. rewrite !not_elem_of_cons. intros (Hn & Hna & Ho & _) _ _.
  unfold analyze_kyc.
  rewrite !(dict_get_insert_ne _ key "name"), !(dict_get_insert_ne _ key "nationality"),
    !(dict_get_insert_ne _ key "occupation") by done.
  reflexivity.
Qed.

Lemma kyc_ignores_other_keys_witness :
  analyze_kyc no_text_numbers sample_env
    (<["country" := PyStr "ir"]> {["name" := PyStr "Jane Doe"]}) =
  analyze_kyc no_text_numbers sample_env {["name" := PyStr "Jane Doe"]}.
Proof.
  refine (kyc_ignores_other_keys no_text_numbers sample_env
            {["name" := PyStr "Jane Doe"]} "country" (PyStr "ir") _ _ _).
  - unfold kyc_keys. rewrite !elem_of_cons, elem_of_nil.
    intros [H | [H | [H | []]]]; discriminate.
  - reflexivity.
  - reflexivity.
Defined.




(** ** The flag catalogue *)

Lemma raised_sublist rules : raised rules `sublist_of` rules.*2.
Proof.
  induction rules as [| [c x] rules IH]; cbn [raised fmap list_fmap snd].
  - constructor.
  - destruct c; by constructor.
Qed.

Lemma red_flag_rules_codes f : codes (red_flag_rules f).*2 = red_flag_codes.
Proof. reflexivity. Qed.

(** X16: the flags of [detect_flags] are either the sentinel alone or a
    selection of the twelve red flags in the fixed order of the checks, so
    no code occurs twice; every red flag carries the description that the
    catalogue FATF_RED_FLAGS has for its code; and the two catalogued codes
    "cash_threshold" and "multiple_countries" are never raised. *)
Theorem flags_follow_catalogue f :
  (codes (detect_flags f) = ["clean"] ∨
   codes (detect_flags f) `sublist_of` red_flag_codes) ∧
  NoDup (codes (detect_flags f)) ∧
  Forall (fun x => x = clean_flag ∨
                   FATF_RED_FLAGS !! Flag.code x = Some (Flag.description x))
    (detect_flags f) ∧
  ("cash_threshold" ∉ codes (detect_flags f)) ∧
  ("multiple_countries" ∉ codes (detect_flags f)) ∧
  is_Some (FATF_RED_FLAGS !! "cash_threshold") ∧
  is_Some (FATF_RED_FLAGS !! "multiple_countries").
Proof.
  assert (Hsub : codes (raised (red_flag_rules f)) `sublist_of` red_flag_codes).
  { rewrite <- (red_flag_rules_codes f). unfold codes.
    apply fmap_sublist, raised_sublist. }
  assert (Hnd : NoDup red_flag_codes).
  { apply (bool_decide_unpack _). vm_compute. exact I. }
  assert (Hcodes : codes (detect_flags f) = ["clean"] ∨
                   codes (detect_flags f) `sublist_of` red_flag_codes).
  { rewrite detect_flags_raised. destruct (raised (red_flag_rules f)); [by left | by right]. }
  split; [exact Hcodes |]. split.
  { destruct Hcodes as [-> | H]; [| by apply (sublist_NoDup _ _ Hnd)].
    apply NoDup_singleton. }
  split.
  { rewrite detect_flags_raised.
    assert (Hr : Forall (fun x => x = clean_flag ∨
                   FATF_RED_FLAGS !! Flag.code x = Some (Flag.description x))
                   (raised (red_flag_rules f))).
    { apply Forall_forall. intros x Hx%elem_of_raised. right.
      rule_cases Hx; vm_compute; reflexivity. }
    destruct (raised (red_flag_rules f)); [| exact Hr].
    repeat constructor. }
  split.
  { rewrite code_in_detect_flags by discriminate. intros (x & Hx & Hc). rule_cases Hx. }
  split.
  { rewrite code_in_detect_flags by discriminate. intros (x & Hx & Hc). rule_cases Hx. }
  split; vm_compute; eauto.
Qed.

(** ** The trees *)

(** X17: for a transaction type that is none of crypto, cash, wire and
    insurance, Tree 3 has no type bonus to give: it returns 20 for a
    high-risk country at night and 0 otherwise. *)
Theorem unknown_type_has_no_combo f :
  tx_type f ∉ ["crypto"; "cash"; "wire"; "insurance"] →
  tree_type_country_combo f =
  NFloat (if is_high_risk f && is_night f then 20 else 0).
Proof.
  rewrite !not_elem_of_cons.
  intros (Hc%String.eqb_neq & Hca%String.eqb_neq & Hw%String.eqb_neq &
          Hi%String.eqb_neq & _).
  unfold tree_type_country_combo. rewrite Hc, Hca, Hw, Hi. cbn [andb].
  destruct (is_high_risk f && is_night f); vm_compute; reflexivity.
Qed.

Lemma unknown_type_has_no_combo_witness :
  ∃ f, extract_features no_text_numbers
         (list_to_map [("type", PyStr "internal"); ("country", PyStr "so");
                       ("hour", PyInt 2)]) = Ok f ∧
       tree_type_country_combo f = NFloat 20.
Proof.
  eexists. split; [vm_compute; reflexivity |].
  refine (unknown_type_has_no_combo _ _).
  rewrite !elem_of_cons, elem_of_nil. intros [H | [H | [H | [H | []]]]]; discriminate.
Defined.

(** X18: each tree only ever returns one of a short list of values. Tree 1
    stays at or below 95, so that its clamp never applies; Tree 5 is one of
    0, 12, 24, 36, 63, 75, 87, 99 and 100. *)
Theorem trees_take_listed_values f :
  In (tree_sanctions_amount f) tree_sanctions_amount_values ∧
  In (tree_account_behavior f) tree_account_behavior_values ∧
  In (tree_type_country_combo f) tree_type_country_combo_values ∧
  In (tree_kyc_velocity f) tree_kyc_velocity_values ∧
  In (tree_anomaly_isolation f) tree_anomaly_isolation_values ∧
  (∃ n, py_round (tree_sanctions_amount f) = Ok n ∧ 0 ≤ n ≤ 95).
Proof.
  repeat split;
    auto using tree_sanctions_amount_in, tree_account_behavior_in,
      tree_type_country_combo_in, tree_kyc_velocity_in, tree_anomaly_isolation_in.
  pose proof (tree_sanctions_amount_in f) as H.
  assert (Hall : forallb (fun t => match py_round t with
                                   | Ok n => (0 <=? n) && (n <=? 95)
                                   | Raise _ => false
                                   end) tree_sanctions_amount_values = true)
    by (vm_compute; reflexivity).
  rewrite forallb_forall in Hall. specialize (Hall _ H).
  destruct (py_round (tree_sanctions_amount f)) as [n |]; [| discriminate].
  exists n. split; [reflexivity |].
  apply andb_prop in Hall as [?%Z.leb_le ?%Z.leb_le]. lia.
Qed.
